(** * Restaurant search, classification and enrichment gateway

    A shallow embedding of the restaurant pipeline of the mobile application:

    - the client library ([src/lib], second document of [logger.ts]): the
      lookup tables, [detectCuisines], [calculateHealthScore],
      [processRestaurant] and [searchRestaurants];
    - the application backend ([backend/src/index.ts], second document of
      [start-backend.ps1]): the handler of [POST /api/restaurants/search];
    - the enrichment router ([backend/src/openrice.ts]): [fetchFromFastAPI]
      and the handlers of [GET /search/:name] and [POST /batch];
    - the rest of the client library: the display helpers, the delivery
      links, [geocodeAddress], [reverseGeocode] and [fetchOpenRiceImages],
      with the backend handler of [GET /api/geocode/reverse];
    - the restaurants page ([src/pages], second document of [Dashboard.tsx]):
      [toggleFavorite], [favoriteRestaurants], [getMarkerColor] and the
      location that [handleManualLocationSearch] sets.

    Conventions of the embedding.

    - A JavaScript [number] is a rational ([Q]): the code only compares
      numbers, subtracts two of them to read the sign, and takes minima and
      maxima, all of which are exact on finite doubles.  [NaN] and the
      infinities are outside the model.
    - A JavaScript string is a [string]; [join], [includes] and [some] are
      written out.  The Unicode-aware built-ins [toLowerCase], [trim] and
      [decodeURIComponent] are parameters of the sections that use them, and
      ASCII instances are given for evaluation.
    - A [Record<string, T>] literal is an association list in source order
      (the order [Object.entries] enumerates).  A lookup [table[key]] also
      finds the members inherited from [Object.prototype]: [Js.read] models
      it where the value read is used as text, and [Js.inherited] names the
      keys outside of which an own-key lookup is what the code does.
    - [async] code that calls [fetch] runs in a small monad that threads the
      log of outbound calls and carries a thrown [Error]; [try]/[catch] is
      [try_catch].  Console logging and timers are not modelled.
    - A provider payload is modelled at its GeoJSON type: a feature has
      [properties] and [geometry], and an optional property is an [option]. *)

From Stdlib Require Import String Ascii List Bool ZArith NArith QArith Lia Lqa.
From Stdlib Require Import Sorted Permutation DecimalString Qround.
Import ListNotations.

Local Open Scope string_scope.

(** ** JavaScript built-ins used by the code *)

Module Js.

(** [s.includes(k)]: [k] occurs in [s] as a contiguous substring. *)
Fixpoint includes (s k : string) : bool :=
  String.prefix k s ||
  match s with
  | EmptyString => false
  | String _ s' => includes s' k
  end.

(** [xs.join(sep)]. *)
Definition join (sep : string) (xs : list string) : string :=
  String.concat sep xs.

(** [xs.some(p)]. *)
Definition some {A : Type} (p : A -> bool) (xs : list A) : bool :=
  existsb p xs.

(** Truthiness of a string: every string but the empty one. *)
Definition truthy_string (s : string) : bool :=
  negb (String.eqb s "").

(** Truthiness of a number: every number but zero. *)
Definition truthy_number (q : Q) : bool :=
  negb (Qeq_bool q 0).

(** Truthiness of an optional object: present. *)
Definition truthy_object {A : Type} (v : option A) : bool :=
  match v with
  | Some _ => true
  | None => false
  end.

(** [v || d] on an optional string property. *)
Definition or_string (v : option string) (d : string) : string :=
  match v with
  | Some s => if truthy_string s then s else d
  | None => d
  end.

(** [v || d] on an optional numeric property. *)
Definition or_number (v : option Q) (d : Q) : Q :=
  match v with
  | Some q => if truthy_number q then q else d
  | None => d
  end.

(** [v || d] on an optional array property (an array is always truthy). *)
Definition or_array {A : Type} (v : option (list A)) (d : list A) : list A :=
  match v with
  | Some xs => xs
  | None => d
  end.

(** The own entry of a key in an object literal (the literals of this
    program list no key twice). *)
Fixpoint lookup {A : Type} (table : list (string * A)) (key : string) : option A :=
  match table with
  | [] => None
  | (k, v) :: rest => if String.eqb k key then Some v else lookup rest key
  end.

(** The members that every object literal inherits from [Object.prototype],
    each with the text that [String(member)] gives: the built-in functions
    print as [function name() { [native code] }], and [__proto__] reads as
    the prototype object itself.  All of them are truthy. *)
Definition Object_prototype : list (string * string) :=
  [ ("constructor", "function Object() { [native code] }");
    ("__proto__", "[object Object]");
    ("hasOwnProperty", "function hasOwnProperty() { [native code] }");
    ("isPrototypeOf", "function isPrototypeOf() { [native code] }");
    ("propertyIsEnumerable", "function propertyIsEnumerable() { [native code] }");
    ("toLocaleString", "function toLocaleString() { [native code] }");
    ("toString", "function toString() { [native code] }");
    ("valueOf", "function valueOf() { [native code] }");
    ("__defineGetter__", "function __defineGetter__() { [native code] }");
    ("__defineSetter__", "function __defineSetter__() { [native code] }");
    ("__lookupGetter__", "function __lookupGetter__() { [native code] }");
    ("__lookupSetter__", "function __lookupSetter__() { [native code] }") ].

(** The key names a member inherited from [Object.prototype]. *)
Definition inherited (key : string) : bool :=
  match lookup Object_prototype key with
  | Some _ => true
  | None => false
  end.

(** [table[key]] on an object literal of strings, read as a string: the own
    entry of the key, else the text of the inherited member of that name,
    else [undefined]. *)
Definition read (table : list (string * string)) (key : string) : option string :=
  match lookup table key with
  | Some v => Some v
  | None => lookup Object_prototype key
  end.

(** A parameter with a default value: the default replaces an omitted
    argument (or an absent body field in a destructuring). *)
Definition default_arg {A : Type} (v : option A) (d : A) : A :=
  match v with
  | Some a => a
  | None => d
  end.

(** [a < b] and [a > b] on numbers. *)
Definition lt (a b : Q) : bool := negb (Qle_bool b a).
Definition gt (a b : Q) : bool := negb (Qle_bool a b).

(** [Math.min(a, b)]. *)
Definition Math_min (a b : Q) : Q :=
  if Qle_bool a b then a else b.

(** [Math.max(...xs)] for a non-empty argument list [x, ...xs]. *)
Definition Math_max (x : Z) (xs : list Z) : Z :=
  fold_left Z.max xs x.

(** Decimal rendering of a natural number, as [`${n}`] prints it. *)
Definition nat_to_string (n : N) : string :=
  NilZero.string_of_uint (N.to_uint n).

(** ASCII instance of [toLowerCase]. *)
Definition ascii_lower (c : ascii) : ascii :=
  let n := nat_of_ascii c in
  if (65 <=? n)%nat && (n <=? 90)%nat then ascii_of_nat (n + 32) else c.

Fixpoint asciiToLowerCase (s : string) : string :=
  match s with
  | EmptyString => EmptyString
  | String c s' => String (ascii_lower c) (asciiToLowerCase s')
  end.

End Js.

(** ** Lookup tables (client library and backend carry the same literals) *)

(** Cuisine filter to provider category token. *)
Definition CUISINE_CATEGORIES : list (string * string) :=
  [ ("all", "catering.restaurant");
    ("chinese", "catering.restaurant.chinese");
    ("japanese", "catering.restaurant.japanese");
    ("korean", "catering.restaurant.korean");
    ("thai", "catering.restaurant.thai");
    ("indian", "catering.restaurant.indian");
    ("italian", "catering.restaurant.italian");
    ("french", "catering.restaurant.french");
    ("american", "catering.restaurant.american");
    ("mexican", "catering.restaurant.mexican");
    ("seafood", "catering.restaurant.seafood");
    ("steakhouse", "catering.restaurant.steak_house");
    ("vegetarian", "catering.restaurant.vegetarian");
    ("vegan", "catering.restaurant.vegan");
    ("fast_food", "catering.fast_food") ].

(** Cuisine health scores (0-100). *)
Definition CUISINE_HEALTH_SCORES : list (string * Z) :=
  [ ("vegan", 85); ("vegetarian", 80); ("healthy", 85); ("organic", 80);
    ("japanese", 75); ("mediterranean", 75); ("vietnamese", 70);
    ("thai", 65); ("korean", 65); ("indian", 60); ("chinese", 60);
    ("seafood", 70); ("italian", 55); ("french", 55); ("mexican", 50);
    ("american", 45); ("steakhouse", 45); ("fast_food", 25);
    ("general", 50) ]%Z.

(** Cuisine keywords for detection. *)
Definition CUISINE_KEYWORDS : list (string * list string) :=
  [ ("chinese", ["chinese"; "cantonese"; "sichuan"; "dim sum"; "noodle"; "dumpling"; "wok"]);
    ("japanese", ["japanese"; "sushi"; "ramen"; "izakaya"; "tempura"; "udon"; "yakitori"]);
    ("korean", ["korean"; "bbq"; "kimchi"; "bibimbap"; "korean_bbq"]);
    ("thai", ["thai"; "pad thai"; "curry"; "tom yum"]);
    ("vietnamese", ["vietnamese"; "pho"; "banh mi"; "spring roll"]);
    ("indian", ["indian"; "curry"; "tandoori"; "masala"; "biryani"; "naan"]);
    ("italian", ["italian"; "pizza"; "pasta"; "risotto"; "trattoria"]);
    ("french", ["french"; "bistro"; "brasserie"; "patisserie"]);
    ("american", ["american"; "burger"; "bbq"; "grill"; "diner"]);
    ("mexican", ["mexican"; "taco"; "burrito"; "tex-mex"; "quesadilla"]);
    ("mediterranean", ["mediterranean"; "greek"; "turkish"; "lebanese"; "falafel"; "hummus"]);
    ("vegetarian", ["vegetarian"; "veggie"]);
    ("vegan", ["vegan"; "plant-based"; "plant based"]);
    ("seafood", ["seafood"; "fish"; "oyster"; "lobster"; "crab"]);
    ("steakhouse", ["steakhouse"; "steak"; "chophouse"]);
    ("fast_food", ["fast food"; "quick service"; "takeaway"; "take-away"]);
    ("healthy", ["healthy"; "salad"; "bowl"; "organic"; "fresh"; "light"]) ].

(** The keyword list of the bonus check in [calculateHealthScore]. *)
Definition HEALTHY_SIGNALS : list string :=
  ["healthy"; "organic"; "vegan"; "vegetarian"].

(** ** Cuisine classifier *)

Section Classifier.

Variable toLowerCase : string -> string.

(** One iteration of the [for ... of Object.entries(CUISINE_KEYWORDS)] loop. *)
Definition detect_step (searchText : string) (detected : list string)
    (entry : string * list string) : list string :=
  let '(cuisine, keywords) := entry in
  if Js.some (fun keyword => Js.includes searchText keyword) keywords
  then detected ++ [cuisine]
  else detected.

Definition detectCuisines (categories : list string) (name : string) : list string :=
  let searchText := toLowerCase (Js.join " " (categories ++ [name])) in
  let detected := fold_left (detect_step searchText) CUISINE_KEYWORDS [] in
  if (0 <? length detected)%nat then detected else ["general"].

(** One iteration of the [for (const cuisine of cuisines)] loop: the score is
    pushed when the table entry is truthy.  For a label that names a member
    inherited from [Object.prototype] ([Js.inherited]) the code pushes that
    member and the final [Math.max] is [NaN], which is outside the model of
    numbers: the properties of the score are stated for labels that name no
    such member, as all labels of [detectCuisines] do. *)
Definition score_step (scores : list Z) (cuisine : string) : list Z :=
  match Js.lookup CUISINE_HEALTH_SCORES cuisine with
  | Some v => if (v =? 0)%Z then scores else scores ++ [v]
  | None => scores
  end.

(** The array [scores] as it stands before the final [Math.max]. *)
Definition collectScores (cuisines categories : list string) : list Z :=
  let scores := fold_left score_step cuisines [] in
  let categoriesText := toLowerCase (Js.join " " categories) in
  if Js.some (fun word => Js.includes categoriesText word) HEALTHY_SIGNALS
  then scores ++ [80%Z]
  else scores.

Definition calculateHealthScore (cuisines categories : list string) : Z :=
  match collectScores cuisines categories with
  | [] => 50%Z
  | s :: rest => Js.Math_max s rest
  end.

End Classifier.

(** ** Asynchronous code: outbound calls and thrown errors *)

(** A JavaScript [Error]: the code only reads [error.message]. *)
Record JsError : Type := Error { message : string }.

Inductive Outcome (A : Type) : Type :=
| Returned (a : A)
| Thrown (e : JsError).
Arguments Returned {A} a.
Arguments Thrown {A} e.

(** What [await fetch(url)] gives: a rejection (network failure) or a response
    with its status and what reading its body gives: the parsed payload, or
    the error thrown by [response.json()] or by the first access to a payload
    that is not of the expected shape. *)
Record Response (Body : Type) : Type := mkResponse {
  status : N;
  json : JsError + Body
}.
Arguments mkResponse {Body} status json.
Arguments status {Body} r.
Arguments json {Body} r.

(** [response.ok]: the status is in the range 200-299. *)
Definition ok {Body : Type} (r : Response Body) : bool :=
  ((200 <=? status r) && (status r <=? 299))%N.

Inductive FetchResult (Body : Type) : Type :=
| Rejected (e : JsError)
| Resolved (r : Response Body).
Arguments Rejected {Body} e.
Arguments Resolved {Body} r.

(** A computation that may issue outbound calls of type [Call]: it extends the
    log of the calls issued so far and returns or throws. *)
Definition Async (Call A : Type) : Type :=
  list Call -> Outcome A * list Call.

Module Async.

Section Ops.

Context {Call : Type}.

Definition ret {A : Type} (a : A) : Async Call A :=
  fun log => (Returned a, log).

Definition throw {A : Type} (e : JsError) : Async Call A :=
  fun log => (Thrown e, log).

Definition bind {A B : Type} (m : Async Call A) (k : A -> Async Call B) : Async Call B :=
  fun log =>
    match m log with
    | (Returned a, log') => k a log'
    | (Thrown e, log') => (Thrown e, log')
    end.

(** [try { body } catch (error) { handler }]. *)
Definition try_catch {A : Type} (body : Async Call A) (handler : JsError -> Async Call A)
    : Async Call A :=
  fun log =>
    match body log with
    | (Returned a, log') => (Returned a, log')
    | (Thrown e, log') => handler e log'
    end.

(** [await fetch(call)] against a server: the call is logged, then the
    server's answer is returned or its rejection thrown. *)
Definition fetch {Body : Type} (server : Call -> FetchResult Body) (call : Call)
    : Async Call (Response Body) :=
  fun log =>
    match server call with
    | Rejected e => (Thrown e, (log ++ [call])%list)
    | Resolved r => (Returned r, (log ++ [call])%list)
    end.

(** [await response.json()]. *)
Definition response_json {Body : Type} (r : Response Body) : Async Call Body :=
  match json r with
  | inl e => throw e
  | inr body => ret body
  end.

(** Running a computation from an empty log. *)
Definition run {A : Type} (m : Async Call A) : Outcome A * list Call :=
  m [].

End Ops.

End Async.

Declare Scope async_scope.
Delimit Scope async_scope with async.
Notation "x <- m ;; k" := (Async.bind m (fun x => k))
  (at level 61, m at next level, right associativity) : async_scope.

(** [xs.sort(compare)]: the sort of ECMAScript is stable; for a consistent
    comparator its result is the one of any stable sort, here an insertion
    sort that puts an element before the first later element it does not
    exceed. *)
Module ArraySort.

Section Sort.

Context {A : Type}.
Variable compare : A -> A -> Q.

Fixpoint insert (x : A) (sorted : list A) : list A :=
  match sorted with
  | [] => [x]
  | y :: ys =>
      if Qle_bool (compare x y) 0 then x :: y :: ys else y :: insert x ys
  end.

Definition sort (xs : list A) : list A :=
  fold_right insert [] xs.

End Sort.

End ArraySort.

(** ** Provider payload and restaurant record *)

(** [feature.properties], with the fields that [processRestaurant] and the
    sort read; the pass-through fields ([city], [district], [postcode],
    [country], [contact], [website], [datasource.raw]) are left out together
    with the record fields copied from them. *)
Record Properties : Type := mkProperties {
  p_name : option string;
  p_categories : option (list string);
  p_distance : option Q;
  p_place_id : option string;
  p_osm_id : option Q;
  p_address_line1 : option string;
  p_address_line2 : option string
}.

(** A GeoJSON feature; [coordinates] is [[longitude, latitude]]. *)
Record Feature : Type := mkFeature {
  properties : Properties;
  coordinates : Q * Q
}.

(** The body of a places response: [data.features] may be absent. *)
Record PlacesData : Type := mkPlacesData {
  features : option (list Feature)
}.

(** The restaurant record.  [location] is flattened into [latitude],
    [longitude] and the address lines, and [health_tags] into its four
    fields; [distance_km] (the same distance, formatted), [contact],
    [operating_hours], [rating], [review_count] and [price_level] are left
    out. *)
Record Restaurant : Type := mkRestaurant {
  id : string;
  name : string;
  latitude : Q;
  longitude : Q;
  address_line1 : string;
  address_line2 : string;
  distance_meters : Q;
  categories : list string;
  cuisine_types : list string;
  has_healthy_options : bool;
  has_vegetarian : bool;
  has_vegan : bool;
  cuisine_health_score : Z;
  place_id : option string;
  osm_id : option Q
}.

Record SearchResult : Type := mkSearchResult {
  success : bool;
  user_location : Q * Q;
  search_radius_meters : Q;
  total_results : nat;
  restaurants : list Restaurant;
  generated_at : string;
  error_message : option string
}.

(** The outbound request to [/v2/places], by its query parameters. *)
Record PlacesRequest : Type := mkPlacesRequest {
  q_categories : string;
  q_filter_circle : Q * Q * Q;
  q_bias_proximity : Q * Q;
  q_limit : Q;
  q_apiKey : string
}.

Definition GEOAPIFY_API_KEY : string := "11f91b14a1334d20884423912f415aac".

(** The comparator handed to [features.sort]. *)
Definition byDistance (a b : Feature) : Q :=
  Js.or_number (p_distance (properties a)) 0
  - Js.or_number (p_distance (properties b)) 0.

Section Pipeline.

Variable toLowerCase : string -> string.
(** [`${n}`] and [n.toString()] on a number. *)
Variable numberToString : Q -> string.

Definition processRestaurant (feature : Feature) : Restaurant :=
  let props := properties feature in
  let coords := coordinates feature in
  let categories := Js.or_array (p_categories props) [] in
  let name := Js.or_string (p_name props) "Unknown Restaurant" in
  let cuisines := detectCuisines toLowerCase categories name in
  let healthScore := calculateHealthScore toLowerCase cuisines categories in
  {| id :=
       Js.or_string (p_place_id props)
         (Js.or_string (option_map numberToString (p_osm_id props))
            (numberToString (fst coords) ++ "-" ++ numberToString (snd coords)));
     name := name;
     latitude := snd coords;
     longitude := fst coords;
     address_line1 := Js.or_string (p_address_line1 props) "Unknown";
     address_line2 := Js.or_string (p_address_line2 props) "";
     distance_meters := Js.or_number (p_distance props) 0;
     categories := categories;
     cuisine_types := cuisines;
     has_healthy_options :=
       Js.some (fun c => Js.includes c "healthy" || Js.includes c "salad") categories;
     has_vegetarian := Js.some (fun c => Js.includes c "vegetarian") categories;
     has_vegan := Js.some (fun c => Js.includes c "vegan") categories;
     cuisine_health_score := healthScore;
     place_id := p_place_id props;
     osm_id := p_osm_id props |}.

End Pipeline.

(** ** Requests and responses of the backend handlers *)

(** A body field that the handler tests with [typeof ... !== "number"]. *)
Inductive JsonField : Type :=
| JNumber (q : Q)
| JOther.

(** A body field on which the handler calls a string method: absent, a
    string, or another value, given by the [TypeError] that the call
    throws on it. *)
Inductive JsonText : Type :=
| TAbsent
| TString (s : string)
| TOther (typeError : JsError).

(** [req.body] of the search handler.  [radius] and [limit] are modelled at
    the type number: another value changes the text of the parameters sent,
    not what the handler does. *)
Record SearchBody : Type := mkSearchBody {
  b_latitude : JsonField;
  b_longitude : JsonField;
  b_radius : option Q;
  b_limit : option Q;
  b_cuisine_filter : JsonText
}.


(** The JSON sent back: the result fields, or [{success: false, error_message}]. *)
Inductive SearchEnvelope : Type :=
| EnvResult (result : SearchResult)
| EnvError (error_message : string).


(** [res.status(code).json(body)]; [res.json(body)] answers 200. *)
Record HttpResponse (Body : Type) : Type := mkHttpResponse {
  http_status : N;
  http_body : Body
}.
Arguments mkHttpResponse {Body} (http_status%_N) http_body.
Arguments http_status {Body} h.
Arguments http_body {Body} h.

(** ** Places search, client library: [searchRestaurants] *)

Section Search.

Variable toLowerCase : string -> string.
Variable numberToString : Q -> string.
(** [new Date().toISOString()] at the time the result is built. *)
Variable now : string.
(** The places provider behind [fetch]. *)
Variable provider : PlacesRequest -> FetchResult PlacesData.
(** [process.env.GEOAPIFY_API_KEY] in the backend process. *)
Variable env_GEOAPIFY_API_KEY : option string.

Local Open Scope async_scope.

(** [CUISINE_CATEGORIES[cuisineFilter] || CUISINE_CATEGORIES.all], as the text
    that [url.searchParams.set("categories", category)] stores. *)
Definition categoryFor (cuisineFilter : string) : string :=
  Js.or_string (Js.read CUISINE_CATEGORIES cuisineFilter)
    (Js.or_string (Js.read CUISINE_CATEGORIES "all") "undefined").

(** The URL built for [/v2/places]. *)
Definition placesUrl (category : string) (latitude longitude radius apiLimit : Q)
    : PlacesRequest :=
  {| q_categories := category;
     q_filter_circle := (longitude, latitude, radius);
     q_bias_proximity := (longitude, latitude);
     q_limit := apiLimit;
     q_apiKey := GEOAPIFY_API_KEY |}.

Definition searchRestaurants (latitude longitude : Q) (radius limit : option Q)
    (cuisineFilter : option string) : Async PlacesRequest SearchResult :=
  let radius := Js.default_arg radius 2000 in
  let limit := Js.default_arg limit 30 in
  let cuisineFilter := Js.default_arg cuisineFilter "all" in
  Async.try_catch
    (let category := categoryFor cuisineFilter in
     let apiLimit := Js.Math_min limit 50 in
     let url := placesUrl category latitude longitude radius apiLimit in
     response <- Async.fetch provider url ;;
     if negb (ok response)
     then Async.throw (Error ("Geoapify API error: " ++ Js.nat_to_string (status response)))
     else
       data <- Async.response_json response ;;
       let features := Js.or_array (features data) [] in
       let features := ArraySort.sort byDistance features in
       let restaurants :=
         map (processRestaurant toLowerCase numberToString) features in
       Async.ret
         {| success := true;
            user_location := (latitude, longitude);
            search_radius_meters := radius;
            total_results := length restaurants;
            restaurants := restaurants;
            generated_at := now;
            error_message := None |})
    (fun error =>
       Async.ret
         {| success := false;
            user_location := (latitude, longitude);
            search_radius_meters := radius;
            total_results := 0;
            restaurants := [];
            generated_at := now;
            error_message :=
              Some (Js.or_string (Some (message error)) "Failed to search restaurants") |}).

(** ** Places search, backend: [POST /api/restaurants/search] *)

(** The backend's [GEOAPIFY_API_KEY]:
    [process.env.GEOAPIFY_API_KEY ?? "11f9..."]. *)
Definition backendApiKey : string :=
  Js.default_arg env_GEOAPIFY_API_KEY "11f91b14a1334d20884423912f415aac".

(** The handler of [app.post("/api/restaurants/search")], given [req.body]. *)
Definition restaurantsSearch (body : SearchBody)
    : Async PlacesRequest (HttpResponse SearchEnvelope) :=
  Async.try_catch
    (let radius := Js.default_arg (b_radius body) 2000 in
     let limit := Js.default_arg (b_limit body) 30 in
     match b_latitude body, b_longitude body with
     | JNumber latitude, JNumber longitude =>
         if Js.lt latitude (-90) || Js.gt latitude 90
         then Async.ret (mkHttpResponse 400
                (EnvError "Invalid latitude: must be between -90 and 90"))
         else if Js.lt longitude (-180) || Js.gt longitude 180
         then Async.ret (mkHttpResponse 400
                (EnvError "Invalid longitude: must be between -180 and 180"))
         else
           lowered <-
             match b_cuisine_filter body with
             | TAbsent => Async.ret (toLowerCase "all")
             | TString cuisine_filter => Async.ret (toLowerCase cuisine_filter)
             | TOther typeError => Async.throw typeError
             end ;;
           let category := categoryFor lowered in
           let apiLimit := Js.Math_min limit 50 in
           let url :=
             {| q_categories := category;
                q_filter_circle := (longitude, latitude, radius);
                q_bias_proximity := (longitude, latitude);
                q_limit := apiLimit;
                q_apiKey := backendApiKey |} in
           response <- Async.fetch provider url ;;
           if negb (ok response)
           then Async.throw
                  (Error ("Geoapify API error: " ++ Js.nat_to_string (status response)))
           else
             data <- Async.response_json response ;;
             let features := Js.or_array (features data) [] in
             let features := ArraySort.sort byDistance features in
             let restaurants :=
               map (processRestaurant toLowerCase numberToString) features in
             Async.ret (mkHttpResponse 200
               (EnvResult
                  {| success := true;
                     user_location := (latitude, longitude);
                     search_radius_meters := radius;
                     total_results := length restaurants;
                     restaurants := restaurants;
                     generated_at := now;
                     error_message := None |}))
     | _, _ =>
         Async.ret (mkHttpResponse 400
           (EnvError "latitude and longitude are required as numbers"))
     end)
    (fun error =>
       Async.ret (mkHttpResponse 500
         (EnvError (Js.or_string (Some (message error)) "Failed to search restaurants")))).

End Search.

(** ** Enrichment gateway: [openrice.ts] *)

(** The scraped record, as far as the gateway logs it; the gateway copies the
    record through untouched. *)
Record OpenRiceData : Type := mkOpenRiceData {
  query : string;
  matched : bool;
  images : list string;
  review_texts : list string
}.

(** The JSON the scraping backend answers with. *)
Record FastApiResult : Type := mkFastApiResult {
  fa_success : bool;
  fa_cache_hit : bool;
  fa_data : option OpenRiceData
}.

(** The outbound call [GET ${FASTAPI_URL}/api/openrice/search/${encodeURIComponent(name)}],
    by the name it carries. *)
Record FastApiCall : Type := mkFastApiCall {
  fa_name : string
}.

(** The JSON sent back: [{success: true, data}] or [{success: false, error}]. *)
Inductive OpenRiceEnvelope : Type :=
| OpenRiceOk (data : OpenRiceData)
| OpenRiceError (error : string).

Definition openrice_success (e : OpenRiceEnvelope) : bool :=
  match e with
  | OpenRiceOk _ => true
  | OpenRiceError _ => false
  end.

Section OpenRice.

(** [decodeURIComponent]: throws a [URIError] on a malformed escape. *)
Variable decodeURIComponent : string -> JsError + string.
(** [String.prototype.trim]. *)
Variable trim : string -> string.
(** The scraping backend behind [fetch]. *)
Variable fastapi : FastApiCall -> FetchResult FastApiResult.

Local Open Scope async_scope.

Definition fetchFromFastAPI (restaurantName : string)
    : Async FastApiCall (option OpenRiceData) :=
  Async.try_catch
    (let apiUrl := mkFastApiCall restaurantName in
     response <- Async.fetch fastapi apiUrl ;;
     if negb (ok response)
     then Async.ret None
     else
       result <- Async.response_json response ;;
       if negb (fa_success result) || negb (Js.truthy_object (fa_data result))
       then Async.ret None
       else
         let data := fa_data result in
         Async.ret data)
    (fun error => Async.ret None).

(** The handler of [router.get('/search/:name')], given [req.params.name]. *)
Definition openriceSearch (params_name : string)
    : Async FastApiCall (HttpResponse OpenRiceEnvelope) :=
  Async.try_catch
    (restaurantName <-
       match decodeURIComponent params_name with
       | inl e => Async.throw e
       | inr s => Async.ret s
       end ;;
     if negb (Js.truthy_string restaurantName)
        || (String.length (trim restaurantName) =? 0)%nat
     then Async.ret (mkHttpResponse 400 (OpenRiceError "Restaurant name is required"))
     else
       data <- fetchFromFastAPI restaurantName ;;
       match data with
       | None =>
           Async.ret (mkHttpResponse 500
             (OpenRiceError "Failed to fetch OpenRice data. Make sure FastAPI is running."))
       | Some data => Async.ret (mkHttpResponse 200 (OpenRiceOk data))
       end)
    (fun error =>
       Async.ret (mkHttpResponse 500
         (OpenRiceError (Js.or_string (Some (message error)) "Internal server error")))).

End OpenRice.

(** ** ASCII instances of the string built-ins, for evaluation *)

Module AsciiBuiltins.

(** White space of [trim], restricted to ASCII: tab, line feed, vertical tab,
    form feed, carriage return and space. *)
Definition isWhiteSpace (c : ascii) : bool :=
  let n := nat_of_ascii c in
  ((9 <=? n) && (n <=? 13) || (n =? 32))%nat.

Fixpoint trimStart (s : string) : string :=
  match s with
  | EmptyString => EmptyString
  | String c s' => if isWhiteSpace c then trimStart s' else s
  end.

(** Drops trailing white space: a character is kept when it is not white
    space or when something is kept after it. *)
Fixpoint trimEnd (s : string) : string :=
  match s with
  | EmptyString => EmptyString
  | String c s' =>
      match trimEnd s' with
      | EmptyString => if isWhiteSpace c then EmptyString else String c EmptyString
      | kept => String c kept
      end
  end.

Definition trim (s : string) : string := trimEnd (trimStart s).

Definition hexDigit (c : ascii) : option nat :=
  let n := nat_of_ascii c in
  if ((48 <=? n) && (n <=? 57))%nat then Some (n - 48)%nat
  else if ((65 <=? n) && (n <=? 70))%nat then Some (n - 55)%nat
  else if ((97 <=? n) && (n <=? 102))%nat then Some (n - 87)%nat
  else None.

(** Percent-decoding; a [%] that two hexadecimal digits do not follow is a
    [URIError].  The decoded bytes are not checked to be UTF-8. *)
Fixpoint decodeURIComponent (s : string) : JsError + string :=
  match s with
  | EmptyString => inr EmptyString
  | String "%"%char (String h (String l rest as tail)) =>
      match hexDigit h, hexDigit l with
      | Some a, Some b =>
          match decodeURIComponent rest with
          | inr r => inr (String (ascii_of_nat (16 * a + b)) r)
          | inl e => inl e
          end
      | _, _ => inl (Error "URI malformed")
      end
  | String "%"%char _ => inl (Error "URI malformed")
  | String c rest =>
      match decodeURIComponent rest with
      | inr r => inr (String c r)
      | inl e => inl e
      end
  end.

(** Decimal rendering of an integral number; other numbers are not needed
    for evaluation and print as their numerator over their denominator. *)
Definition numberToString (q : Q) : string :=
  if (Z.pos (Qden q) =? 1)%Z then NilZero.string_of_int (Z.to_int (Qnum q))
  else NilZero.string_of_int (Z.to_int (Qnum q)) ++ "/"
       ++ NilZero.string_of_uint (Pos.to_uint (Qden q)).

End AsciiBuiltins.


(** ** Display helpers of the client library *)

Definition getHealthScoreColor (score : Q) : string :=
  if Qle_bool 75 score then "text-green-500"
  else if Qle_bool 50 score then "text-amber-500"
  else "text-red-500".

Definition getHealthScoreBg (score : Q) : string :=
  if Qle_bool 75 score then "bg-green-500/10 border-green-500/20"
  else if Qle_bool 50 score then "bg-amber-500/10 border-amber-500/20"
  else "bg-red-500/10 border-red-500/20".

Definition getHealthScoreLabel (score : Q) : string :=
  if Qle_bool 75 score then "Healthy"
  else if Qle_bool 50 score then "Moderate"
  else "Indulgent".

(** [getMarkerColor] of the restaurants page. *)
Definition getMarkerColor (score : Q) : string :=
  if Qle_bool 75 score then "#22c55e"
  else if Qle_bool 50 score then "#f59e0b"
  else "#ef4444".

(** The table of [getCuisineEmoji]. *)
Definition cuisineEmojis : list (string * string) :=
  [ ("chinese", "🥡"); ("japanese", "🍱"); ("korean", "🍜"); ("thai", "🍛");
    ("vietnamese", "🍲"); ("indian", "🍲"); ("italian", "🍝"); ("french", "🥐");
    ("american", "🍔"); ("mexican", "🌮"); ("mediterranean", "🥙");
    ("vegetarian", "🥗"); ("vegan", "🌱"); ("seafood", "🦐"); ("steakhouse", "🥩");
    ("fast_food", "🍟"); ("healthy", "🥗"); ("general", "🍽️") ].

(** [Math.round]: the nearest integer, a tie going up. *)
Definition Math_round (q : Q) : Z := Qfloor (q + (1 # 2)).

(** [`${n}`] on an integral number. *)
Definition int_to_string (n : Z) : string :=
  NilZero.string_of_int (Z.to_int n).

Section Display.

Variable toLowerCase : string -> string.
(** [x.toFixed(1)]. *)
Variable toFixed1 : Q -> string.

(** The table is read at its own keys: for a name inherited from
    [Object.prototype] the code returns that member, which is not a string. *)
Definition getCuisineEmoji (cuisineType : string) : string :=
  Js.or_string (Js.lookup cuisineEmojis (toLowerCase cuisineType)) "🍽️".

Definition formatDistance (meters : Q) : string :=
  if Js.lt meters 1000
  then int_to_string (Math_round meters) ++ "m"
  else toFixed1 (meters / 1000) ++ "km".

End Display.

(** ** Regions and delivery links *)

Inductive Region : Type := hk | my | auto.

Record RegionFeatures : Type := mkRegionFeatures {
  f_openrice : bool;
  f_keeta : bool;
  f_grab : bool;
  f_foodpanda : bool
}.

(** [REGIONS[region].features]; [REGIONS] has no entry for ["auto"]. *)
Definition REGIONS_features (region : Region) : option RegionFeatures :=
  match region with
  | hk => Some (mkRegionFeatures true true false true)
  | my => Some (mkRegionFeatures false false true true)
  | auto => None
  end.

Record DeliveryLinks : Type := mkDeliveryLinks {
  l_openrice : option string;
  l_keeta : option string;
  l_grab : option string;
  l_foodpanda : option string;
  l_googleMaps : string
}.

(** An entry of [getAvailableServices]. *)
Record Service : Type := mkService {
  s_key : string;
  s_name : string;
  s_icon : string;
  s_color : string
}.

Definition Region_eqb (a b : Region) : bool :=
  match a, b with
  | hk, hk | my, my | auto, auto => true
  | _, _ => false
  end.

(** [links.key = value] on the links object. *)
Definition set_openrice (v : string) (links : DeliveryLinks) : DeliveryLinks :=
  mkDeliveryLinks (Some v) (l_keeta links) (l_grab links) (l_foodpanda links)
    (l_googleMaps links).

Definition set_keeta (v : string) (links : DeliveryLinks) : DeliveryLinks :=
  mkDeliveryLinks (l_openrice links) (Some v) (l_grab links) (l_foodpanda links)
    (l_googleMaps links).

Definition set_grab (v : string) (links : DeliveryLinks) : DeliveryLinks :=
  mkDeliveryLinks (l_openrice links) (l_keeta links) (Some v) (l_foodpanda links)
    (l_googleMaps links).

Definition set_foodpanda (v : string) (links : DeliveryLinks) : DeliveryLinks :=
  mkDeliveryLinks (l_openrice links) (l_keeta links) (l_grab links) (Some v)
    (l_googleMaps links).

(** Truthiness of an optional string: present and not empty. *)
Definition truthy_link (v : option string) : bool :=
  match v with
  | Some s => Js.truthy_string s
  | None => false
  end.

Section Delivery.

Variable encodeURIComponent : string -> string.
Variable numberToString : Q -> string.

Definition getDeliveryLinks (restaurant : Restaurant) (region : Region) : DeliveryLinks :=
  let encodedName := encodeURIComponent (name restaurant) in
  let encodedAddress := encodeURIComponent (address_line1 restaurant) in
  let links :=
    {| l_openrice := None; l_keeta := None; l_grab := None; l_foodpanda := None;
       l_googleMaps :=
         "https://www.google.com/maps/dir/?api=1&destination="
         ++ numberToString (latitude restaurant) ++ ","
         ++ numberToString (longitude restaurant) |} in
  let links :=
    if Region_eqb region hk || Region_eqb region auto
    then
      let links :=
        set_openrice
          ("https://www.openrice.com/en/hongkong/restaurants?whatwhere=" ++ encodedName)
          links in
      let links := set_keeta ("https://www.keeta.com/search?q=" ++ encodedName) links in
      set_foodpanda ("https://www.foodpanda.hk/restaurants/search?q=" ++ encodedName)
        links
    else links in
  let links :=
    if Region_eqb region my || Region_eqb region auto
    then
      let links :=
        set_grab ("https://food.grab.com/my/en/restaurants?search=" ++ encodedName)
          links in
      if negb (truthy_link (l_foodpanda links))
      then set_foodpanda
             ("https://www.foodpanda.my/restaurants/search?q=" ++ encodedName) links
      else links
    else links in
  links.

End Delivery.

Definition getAvailableServices (region : Region) : list Service :=
  match region with
  | hk =>
      [ mkService "openrice" "OpenRice" "🍽️" "bg-orange-500";
        mkService "keeta" "Keeta" "🛵" "bg-green-500";
        mkService "foodpanda" "Foodpanda" "🐼" "bg-pink-500" ]
  | my =>
      [ mkService "grab" "GrabFood" "🛵" "bg-green-500";
        mkService "foodpanda" "Foodpanda" "🐼" "bg-pink-500" ]
  | auto =>
      [ mkService "openrice" "OpenRice" "🍽️" "bg-orange-500";
        mkService "keeta" "Keeta" "🛵" "bg-green-500";
        mkService "grab" "GrabFood" "🛵" "bg-green-600";
        mkService "foodpanda" "Foodpanda" "🐼" "bg-pink-500" ]
  end.

(** ** Geocoding: client library and backend *)

(** The outbound calls to the geocoding endpoints, by their query parameters. *)
Inductive GeocodeCall : Type :=
| GeocodeSearch (text : string) (apiKey : string) (limit : string)
| GeocodeReverse (lat lon : string) (apiKey : string).

Record GeocodeFeature : Type := mkGeocodeFeature {
  gf_formatted : option string;
  gf_city : option string;
  gf_district : option string;
  gf_country : option string;
  gf_coordinates : Q * Q
}.

(** The body of a geocoding response: [data.features] may be absent. *)
Record GeocodeData : Type := mkGeocodeData {
  g_features : option (list GeocodeFeature)
}.

(** [data.features?.[0]]. *)
Definition firstFeature (data : GeocodeData) : option GeocodeFeature :=
  match g_features data with
  | Some (feature :: _) => Some feature
  | _ => None
  end.

Record GeocodeResult : Type := mkGeocodeResult {
  gr_success : bool;
  gr_latitude : option Q;
  gr_longitude : option Q;
  gr_formatted_address : option string;
  gr_error_message : option string
}.

Record GeocodeDetails : Type := mkGeocodeDetails {
  d_city : option string;
  d_district : option string;
  d_country : option string
}.

Record ReverseGeocodeResult : Type := mkReverseGeocodeResult {
  rg_success : bool;
  rg_address : option string;
  rg_details : option GeocodeDetails;
  rg_error_message : option string
}.

(** [req.query] of the reverse-geocode handler. *)
Record ReverseQuery : Type := mkReverseQuery {
  rq_lat : option string;
  rq_lon : option string
}.

(** The JSON sent back by the reverse-geocode handler:
    [{success: true, address, details}] (an [undefined] address is left out
    of the JSON), [{success: true, address: null}], or
    [{success: false, error_message}]. *)
Inductive ReverseEnvelope : Type :=
| ReverseFound (address : option string) (details : GeocodeDetails)
| ReverseAddressNull
| ReverseFailed (error_message : string).

Definition reverse_success (e : ReverseEnvelope) : bool :=
  match e with
  | ReverseFound _ _ | ReverseAddressNull => true
  | ReverseFailed _ => false
  end.

Section Geocoding.

Variable numberToString : Q -> string.
(** The geocoding provider behind [fetch]. *)
Variable geocoder : GeocodeCall -> FetchResult GeocodeData.
(** [process.env.GEOAPIFY_API_KEY] in the backend process. *)
Variable env_GEOAPIFY_API_KEY : option string.

Local Open Scope async_scope.

Definition geocodeAddress (address : string) : Async GeocodeCall GeocodeResult :=
  Async.try_catch
    (let url := GeocodeSearch address GEOAPIFY_API_KEY "1" in
     response <- Async.fetch geocoder url ;;
     if negb (ok response)
     then Async.throw (Error ("Geoapify API error: " ++ Js.nat_to_string (status response)))
     else
       data <- Async.response_json response ;;
       match firstFeature data with
       | None =>
           Async.ret
             {| gr_success := false;
                gr_latitude := None;
                gr_longitude := None;
                gr_formatted_address := None;
                gr_error_message :=
                  Some "Location not found. Try a more specific address." |}
       | Some feature =>
           Async.ret
             {| gr_success := true;
                gr_latitude := Some (snd (gf_coordinates feature));
                gr_longitude := Some (fst (gf_coordinates feature));
                gr_formatted_address := gf_formatted feature;
                gr_error_message := None |}
       end)
    (fun error =>
       Async.ret
         {| gr_success := false;
            gr_latitude := None;
            gr_longitude := None;
            gr_formatted_address := None;
            gr_error_message :=
              Some (Js.or_string (Some (message error)) "Failed to geocode address") |}).

Definition reverseGeocode (latitude longitude : Q)
    : Async GeocodeCall ReverseGeocodeResult :=
  Async.try_catch
    (let url :=
       GeocodeReverse (numberToString latitude) (numberToString longitude)
         GEOAPIFY_API_KEY in
     response <- Async.fetch geocoder url ;;
     if negb (ok response)
     then Async.throw (Error ("Geoapify API error: " ++ Js.nat_to_string (status response)))
     else
       data <- Async.response_json response ;;
       match firstFeature data with
       | None =>
           Async.ret
             {| rg_success := true; rg_address := None; rg_details := None;
                rg_error_message := None |}
       | Some feature =>
           Async.ret
             {| rg_success := true;
                rg_address := gf_formatted feature;
                rg_details :=
                  Some {| d_city := gf_city feature;
                          d_district := gf_district feature;
                          d_country := gf_country feature |};
                rg_error_message := None |}
       end)
    (fun error =>
       Async.ret
         {| rg_success := false; rg_address := None; rg_details := None;
            rg_error_message :=
              Some (Js.or_string (Some (message error)) "Failed to reverse geocode") |}).

(** The handler of [app.get("/api/geocode/reverse")], given [req.query]. *)
Definition geocodeReverse (query : ReverseQuery)
    : Async GeocodeCall (HttpResponse ReverseEnvelope) :=
  Async.try_catch
    (if negb (truthy_link (rq_lat query)) || negb (truthy_link (rq_lon query))
     then Async.ret (mkHttpResponse 400
            (ReverseFailed "lat and lon query parameters are required"))
     else
       let url :=
         GeocodeReverse (Js.default_arg (rq_lat query) "") (Js.default_arg (rq_lon query) "")
           (backendApiKey env_GEOAPIFY_API_KEY) in
       response <- Async.fetch geocoder url ;;
       if negb (ok response)
       then Async.throw
              (Error ("Geoapify API error: " ++ Js.nat_to_string (status response)))
       else
         data <- Async.response_json response ;;
         match firstFeature data with
         | None => Async.ret (mkHttpResponse 200 ReverseAddressNull)
         | Some feature =>
             Async.ret (mkHttpResponse 200
               (ReverseFound (gf_formatted feature)
                  {| d_city := gf_city feature;
                     d_district := gf_district feature;
                     d_country := gf_country feature |}))
         end)
    (fun error =>
       Async.ret (mkHttpResponse 500
         (ReverseFailed
            (Js.or_string (Some (message error)) "Failed to reverse geocode")))).

End Geocoding.

(** ** Enrichment: the client's [fetchOpenRiceImages] and the batch route *)

(** [result.data] as the client reads it. *)
Record ImageData : Type := mkImageData {
  i_matched : bool;
  i_name : option string;
  i_images : option (list string)
}.

(** The JSON of the application backend as the client reads it. *)
Record ImageReply : Type := mkImageReply {
  ir_success : bool;
  ir_data : option ImageData;
  ir_error : option string
}.

(** The outbound call [GET ${BACKEND_URL}/api/openrice/search/${encodeURIComponent(name)}],
    by the name it carries. *)
Record ImageCall : Type := mkImageCall {
  ic_name : string
}.

Record ImageResult : Type := mkImageResult {
  im_success : bool;
  im_images : option (list string);
  im_name : option string;
  im_error : option string
}.

(** [req.body.restaurants] of the batch route, as [Array.isArray] sees it. *)
Inductive BatchField : Type :=
| ArrayOf (names : list string)
| NotAnArray.

(** The outbound call [POST ${FASTAPI_URL}/api/openrice/batch], by its JSON body. *)
Record BatchCall : Type := mkBatchCall {
  bc_restaurants : list string;
  bc_get_details : bool
}.

(** The JSON sent back by the batch route: the scraping backend's result as
    it came, or [{success: false, error}]. *)
Inductive BatchEnvelope (Result : Type) : Type :=
| BatchRelayed (result : Result)
| BatchError (error : string).
Arguments BatchRelayed {Result} result.
Arguments BatchError {Result} error.

Section Enrichment.

(** The application backend behind the client's [fetch], and
    [response.text()] on one of its responses. *)
Variable backend : ImageCall -> FetchResult ImageReply.
Variable response_text : Response ImageReply -> JsError + string.

Local Open Scope async_scope.

Definition fetchOpenRiceImages (restaurantName : string)
    : Async ImageCall ImageResult :=
  Async.try_catch
    (let apiUrl := mkImageCall restaurantName in
     response <- Async.fetch backend apiUrl ;;
     if negb (ok response)
     then
       errorText <-
         match response_text response with
         | inl e => Async.throw e
         | inr text => Async.ret text
         end ;;
       Async.throw
         (Error ("OpenRice API error: " ++ Js.nat_to_string (status response)
                 ++ " - " ++ errorText))
     else
       result <- Async.response_json response ;;
       match ir_data result with
       | Some data =>
           if ir_success result && i_matched data
           then
             let images := Js.or_array (i_images data) [] in
             Async.ret
               {| im_success := true;
                  im_images := Some images;
                  im_name := i_name data;
                  im_error := None |}
           else
             Async.ret
               {| im_success := false; im_images := None; im_name := None;
                  im_error :=
                    Some (Js.or_string (ir_error result)
                            "Restaurant not found on OpenRice") |}
       | None =>
           Async.ret
             {| im_success := false; im_images := None; im_name := None;
                im_error :=
                  Some (Js.or_string (ir_error result)
                          "Restaurant not found on OpenRice") |}
       end)
    (fun error =>
       Async.ret
         {| im_success := false; im_images := None; im_name := None;
            im_error :=
              Some (Js.or_string (Some (message error)) "Failed to fetch OpenRice data") |}).

End Enrichment.

Section Batch.

(** The JSON of the scraping backend's batch answer, relayed as it is. *)
Variable BatchResult : Type.
Variable fastapiBatch : BatchCall -> FetchResult BatchResult.

Local Open Scope async_scope.

(** The handler of [router.post('/batch')], given [req.body.restaurants]. *)
Definition openriceBatch (restaurants : BatchField)
    : Async BatchCall (HttpResponse (BatchEnvelope BatchResult)) :=
  Async.try_catch
    (match restaurants with
     | ArrayOf names =>
         if (length names =? 0)%nat
         then Async.ret (mkHttpResponse 400 (BatchError "restaurants array is required"))
         else
           response <- Async.fetch fastapiBatch (mkBatchCall names true) ;;
           if negb (ok response)
           then Async.ret (mkHttpResponse 500 (BatchError "FastAPI batch request failed"))
           else
             result <- Async.response_json response ;;
             Async.ret (mkHttpResponse 200 (BatchRelayed result))
     | NotAnArray =>
         Async.ret (mkHttpResponse 400 (BatchError "restaurants array is required"))
     end)
    (fun error =>
       Async.ret (mkHttpResponse 500
         (BatchError (Js.or_string (Some (message error)) "Internal server error")))).

End Batch.

(** ** The restaurants page: favourites and the manual location *)

(** The updater of [toggleFavorite]. *)
Definition toggleFavorite (id : string) (prev : list string) : list string :=
  if existsb (String.eqb id) prev
  then filter (fun fav => negb (String.eqb fav id)) prev
  else (prev ++ [id])%list.

(** [favoriteRestaurants]. *)
Definition favoriteRestaurants (restaurants : list Restaurant) (favorites : list string)
    : list Restaurant :=
  filter (fun r => existsb (String.eqb (id r)) favorites) restaurants.

Record ManualLocation : Type := mkManualLocation {
  m_lat : Q;
  m_lng : Q;
  m_address : string
}.

(** Truthiness of an optional number: present and not zero. *)
Definition truthy_coordinate (v : option Q) : bool :=
  match v with
  | Some q => Js.truthy_number q
  | None => false
  end.

(** The location that [handleManualLocationSearch] sets from the result of
    [geocodeAddress], if it sets one. *)
Definition manualLocationOf (result : GeocodeResult) (manualLocationInput : string)
    : option ManualLocation :=
  if gr_success result && truthy_coordinate (gr_latitude result)
     && truthy_coordinate (gr_longitude result)
  then
    match gr_latitude result, gr_longitude result with
    | Some lat, Some lng =>
        Some {| m_lat := lat;
                m_lng := lng;
                m_address :=
                  Js.or_string (gr_formatted_address result) manualLocationInput |}
    | _, _ => None
    end
  else None.

(** ** Vocabulary of the properties *)

Local Open Scope list_scope.

(** The table entries of a cuisine label, as a list of at most one score. *)
Definition tableEntries (cuisine : string) : list Z :=
  match Js.lookup CUISINE_HEALTH_SCORES cuisine with
  | Some v => [v]
  | None => []
  end.

(** A table entry matches a search text when one of its keywords occurs in it. *)
Definition matchesCuisine (searchText : string) (entry : string * list string) : bool :=
  existsb (fun keyword => Js.includes searchText keyword) (snd entry).

(** [m] is the maximum of [pool]: a member that no member exceeds. *)
Definition isMaximumOf (m : Z) (pool : list Z) : Prop :=
  In m pool /\ Forall (fun s => (s <= m)%Z) pool.

Section CandidatePool.

Variable toLowerCase : string -> string.

(** The candidate pool in the words of the specification: the score-table
    entry of every matched cuisine, plus 80 when a healthy-signal keyword
    occurs in the lower-cased text of the category tags (the tags joined by
    single spaces). *)
Definition healthySignal (categories : list string) : bool :=
  existsb (fun word => Js.includes (toLowerCase (Js.join " " categories)) word)
    HEALTHY_SIGNALS.

Definition candidatePool (cuisines categories : list string) : list Z :=
  flat_map tableEntries cuisines
  ++ (if healthySignal categories then [80%Z] else []).

End CandidatePool.

Section SortKeys.

Context {A : Type}.
Variable key : A -> Q.

(** The comparator [(a, b) => key(a) - key(b)]. *)
Definition compareKeys (a b : A) : Q := key a - key b.

Definition keyLe (a b : A) : Prop := key a <= key b.

Definition hasKey (d : Q) (a : A) : bool := Qeq_bool (key a) d.

End SortKeys.

(** The sort key of a feature, [feature.properties.distance || 0]. *)
Definition featureDistance (f : Feature) : Q :=
  Js.or_number (p_distance (properties f)) 0.

(** The request a search sends. *)
Definition searchUrl (latitude longitude : Q) (radius limit : option Q)
    (cuisineFilter : option string) : PlacesRequest :=
  placesUrl (categoryFor (Js.default_arg cuisineFilter "all")) latitude longitude
    (Js.default_arg radius 2000) (Js.Math_min (Js.default_arg limit 30) 50).

Section SearchResults.

Variable toLowerCase : string -> string.
Variable numberToString : Q -> string.
Variable now : string.

(** The result built in the [catch] block. *)
Definition failureResult (latitude longitude : Q) (radius : option Q) (error : JsError)
    : SearchResult :=
  {| success := false;
     user_location := (latitude, longitude);
     search_radius_meters := Js.default_arg radius 2000;
     total_results := 0;
     restaurants := [];
     generated_at := now;
     error_message :=
       Some (Js.or_string (Some (message error)) "Failed to search restaurants") |}.

(** The result built at the end of the [try] block. *)
Definition successResult (latitude longitude : Q) (radius : option Q) (data : PlacesData)
    : SearchResult :=
  let restaurants :=
    map (processRestaurant toLowerCase numberToString)
      (ArraySort.sort byDistance (Js.or_array (features data) [])) in
  {| success := true;
     user_location := (latitude, longitude);
     search_radius_meters := Js.default_arg radius 2000;
     total_results := length restaurants;
     restaurants := restaurants;
     generated_at := now;
     error_message := None |}.

(** The result of a search, by what the provider answers. *)
Definition resultFor (latitude longitude : Q) (radius : option Q)
    (answer : FetchResult PlacesData) : SearchResult :=
  match answer with
  | Rejected e => failureResult latitude longitude radius e
  | Resolved response =>
      if ok response
      then match json response with
           | inl e => failureResult latitude longitude radius e
           | inr data => successResult latitude longitude radius data
           end
      else failureResult latitude longitude radius
             (Error ("Geoapify API error: " ++ Js.nat_to_string (status response))%string)
  end.

End SearchResults.


(** ** Scenarios *)

Module Scenario.

Import AsciiBuiltins.

Definition clock : string := "2026-01-01T00:00:00.000Z".

Definition farFeature : Feature :=
  mkFeature
    (mkProperties (Some "Golden Wok"%string)
       (Some ["catering.restaurant"%string; "catering.restaurant.chinese"%string])
       (Some 500) (Some "place-far"%string) None None None)
    (1141700 # 10000, 223200 # 10000).

Definition nearFeature : Feature :=
  mkFeature
    (mkProperties (Some "Dim Sum Corner"%string)
       (Some ["catering.restaurant"%string])
       (Some 150) (Some "place-near"%string) None None None)
    (1141690 # 10000, 223190 # 10000).

(** A feature without name, categories, distance and place id. *)
Definition unnamedFeature : Feature :=
  mkFeature (mkProperties None None None None (Some 4711) None None) (114, 22).

(** A feature whose provider-reported distance is negative. *)
Definition negativeDistanceFeature : Feature :=
  mkFeature
    (mkProperties (Some "Harbour Grill"%string) (Some ["catering.restaurant"%string])
       (Some (-5)) None None None None)
    (1141694 # 10000, 223193 # 10000).

Definition twoFeatures : Response PlacesData :=
  mkResponse 200 (inr (mkPlacesData (Some [farFeature; nearFeature]))).

(** A provider that answers every request with the two features. *)
Definition twoFeatureProvider (request : PlacesRequest) : FetchResult PlacesData :=
  Resolved twoFeatures.


(** A provider that answers every request with status 404. *)
Definition notFound : Response PlacesData :=
  mkResponse 404 (inr (mkPlacesData None)).

Definition failingProvider (request : PlacesRequest) : FetchResult PlacesData :=
  Resolved notFound.

(** A provider that answers 200 with an empty feature list. *)
Definition emptyProvider (request : PlacesRequest) : FetchResult PlacesData :=
  Resolved (mkResponse 200 (inr (mkPlacesData (Some [])))).

(** A provider that answers with one feature of negative distance. *)
Definition negativeProvider (request : PlacesRequest) : FetchResult PlacesData :=
  Resolved (mkResponse 200 (inr (mkPlacesData (Some [negativeDistanceFeature])))).

(** A scraping backend that refuses the connection. *)
Definition offlineFastapi (call : FastApiCall) : FetchResult FastApiResult :=
  Rejected (Error "connect ECONNREFUSED").

(** The search at (22.3193, 114.1694), radius 2000, filter "chinese". *)
Definition hongKongSearch (provider : PlacesRequest -> FetchResult PlacesData)
    (limit : option Q) : Async PlacesRequest SearchResult :=
  searchRestaurants Js.asciiToLowerCase numberToString clock provider
    (223193 # 10000) (1141694 # 10000) (Some 2000) limit (Some "chinese"%string).

Definition hongKongUrl (limit : option Q) : PlacesRequest :=
  searchUrl (223193 # 10000) (1141694 # 10000) (Some 2000) limit (Some "chinese"%string).

Definition hongKongResult : SearchResult :=
  Eval vm_compute in
    successResult Js.asciiToLowerCase numberToString clock
      (223193 # 10000) (1141694 # 10000) (Some 2000)
      (mkPlacesData (Some [farFeature; nearFeature])).

(** The search at latitude 91, with the defaults for the other arguments. *)
Definition outOfRangeSearch (provider : PlacesRequest -> FetchResult PlacesData)
    : Async PlacesRequest SearchResult :=
  searchRestaurants Js.asciiToLowerCase numberToString clock provider
    91 0 None None None.

End Scenario.

(** A list of strings has no repetition when this test succeeds. *)
Fixpoint distinct (xs : list string) : bool :=
  match xs with
  | [] => true
  | x :: rest => negb (existsb (String.eqb x) rest) && distinct rest
  end.

(** The labels that the classifier knows: those of the keyword table, and
    "general". *)
Definition knownLabels : list string :=
  map fst CUISINE_KEYWORDS ++ ["general"%string].

(** The body that the reverse-geocode handler sends for what the client's
    [reverseGeocode] returns: the same address and details, [address: null]
    where the client has a success without details, and the error message
    alone for a failure. *)
Definition reverseBodyOf (r : ReverseGeocodeResult) : ReverseEnvelope :=
  if rg_success r
  then match rg_details r with
       | Some details => ReverseFound (rg_address r) details
       | None => ReverseAddressNull
       end
  else ReverseFailed (Js.default_arg (rg_error_message r) "").


(** The result of [fetchOpenRiceImages], by what the application backend
    answers. *)
Definition imageFailure (error : string) : ImageResult :=
  {| im_success := false; im_images := None; im_name := None; im_error := Some error |}.

Definition imageResultFor (response_text : Response ImageReply -> JsError + string)
    (answer : FetchResult ImageReply) : ImageResult :=
  let caught (e : JsError) :=
    imageFailure (Js.or_string (Some (message e)) "Failed to fetch OpenRice data") in
  match answer with
  | Rejected e => caught e
  | Resolved response =>
      if ok response
      then
        match json response with
        | inl e => caught e
        | inr reply =>
            let notFound :=
              imageFailure
                (Js.or_string (ir_error reply) "Restaurant not found on OpenRice") in
            match ir_data reply with
            | Some data =>
                if ir_success reply && i_matched data
                then {| im_success := true;
                        im_images := Some (Js.or_array (i_images data) []);
                        im_name := i_name data;
                        im_error := None |}
                else notFound
            | None => notFound
            end
        end
      else
        match response_text response with
        | inl e => caught e
        | inr errorText =>
            caught
              (Error ("OpenRice API error: " ++ Js.nat_to_string (status response)
                      ++ " - " ++ errorText))
        end
  end.

(** ** Further instances and scenarios *)

Module Instances.

(** [x.toFixed(1)] on the exact value of a number: the decimal with one
    digit after the point that is nearest to it, the larger one on a tie,
    computed on the absolute value and signed afterwards. *)
Definition toFixed1 (q : Q) : string :=
  let digits (x : Q) : string :=
    let n := Qfloor (x * 10 + (1 # 2)) in
    (int_to_string (n / 10) ++ "." ++ int_to_string (n mod 10))%string in
  if Js.lt q 0 then ("-" ++ digits (- q))%string else digits q.

Definition hexChar (n : nat) : ascii :=
  ascii_of_nat (if (n <? 10)%nat then 48 + n else 55 + n).

(** The characters that [encodeURIComponent] leaves as they are. *)
Definition unreserved (c : ascii) : bool :=
  let n := nat_of_ascii c in
  ((48 <=? n) && (n <=? 57) || (65 <=? n) && (n <=? 90) || (97 <=? n) && (n <=? 122))%nat
  || existsb (Ascii.eqb c) (list_ascii_of_string "-_.!~*'()").

(** [encodeURIComponent], byte by byte. *)
Fixpoint encodeURIComponent (s : string) : string :=
  match s with
  | EmptyString => EmptyString
  | String c rest =>
      if unreserved c then String c (encodeURIComponent rest)
      else
        let n := nat_of_ascii c in
        String "%" (String (hexChar (n / 16)) (String (hexChar (n mod 16))
          (encodeURIComponent rest)))
  end.

End Instances.

Module Cases.

(** A restaurant record as a search returns it. *)
Definition dimSumCorner : Restaurant :=
  processRestaurant Js.asciiToLowerCase AsciiBuiltins.numberToString
    Scenario.nearFeature.


(** A geocoder that knows one place, on the equator. *)
Definition equatorFeature : GeocodeFeature :=
  mkGeocodeFeature (Some "Equator Monument, Kayabwe, Uganda"%string)
    (Some "Kayabwe"%string) None (Some "Uganda"%string) (320456 # 10000, 0).

Definition equatorAnswer : Response GeocodeData :=
  mkResponse 200 (inr (mkGeocodeData (Some [equatorFeature]))).

Definition equatorGeocoder (call : GeocodeCall) : FetchResult GeocodeData :=
  Resolved equatorAnswer.

(** A scraping backend that has a record for every name. *)
Definition kfcData : OpenRiceData :=
  mkOpenRiceData "KFC" true ["https://static.example/kfc-1.jpg"%string] [].

Definition kfcAnswer : Response FastApiResult :=
  mkResponse 200 (inr (mkFastApiResult true false (Some kfcData))).

Definition scrapingFastapi (call : FastApiCall) : FetchResult FastApiResult :=
  Resolved kfcAnswer.

(** A body whose cuisine filter is the number 5: calling [toLowerCase] on it
    throws. *)
Definition numericFilterBody : SearchBody :=
  mkSearchBody (JNumber 22) (JNumber 114) None None
    (TOther (Error "cuisine_filter.toLowerCase is not a function")).


(** A scraping backend whose batch route is down. *)
Definition brokenBatch (call : BatchCall) : FetchResult (list OpenRiceData) :=
  Resolved (mkResponse 503 (inl (Error "Unexpected token < in JSON"))).

End Cases.

(** * Properties *)

(** ** Facts about the built-ins *)

Lemma lookup_In {A : Type} (table : list (string * A)) (key : string) (v : A) :
  Js.lookup table key = Some v -> In (key, v) table.
Proof.
  induction table as [| [k w] rest IH]; simpl; [discriminate |].
  destruct (String.eqb k key) eqn:E.
  - apply String.eqb_eq in E. intros [= ->]. subst. now left.
  - intros H. right. now apply IH.
Qed.


(** [Math.max] returns one of its arguments, and none of them exceeds it. *)
Lemma Math_max_In (xs : list Z) (x : Z) :
  In (Js.Math_max x xs) (x :: xs).
Proof.
  unfold Js.Math_max. revert x.
  induction xs as [| y ys IH]; intros x; simpl.
  - now left.
  - specialize (IH (Z.max x y)).
    remember (fold_left Z.max ys (Z.max x y)) as m eqn:Hm. clear Hm.
    destruct IH as [H | H].
    + destruct (Z.max_spec x y) as [[_ E] | [_ E]]; rewrite E in H.
      * right. left. exact H.
      * left. exact H.
    + right. right. exact H.
Qed.

Lemma Math_max_upper (xs : list Z) (x : Z) :
  Forall (fun s => (s <= Js.Math_max x xs)%Z) (x :: xs).
Proof.
  revert x. induction xs as [| y ys IH]; intros x.
  - constructor; [unfold Js.Math_max; simpl; lia | constructor].
  - specialize (IH (Z.max x y)).
    change (Js.Math_max x (y :: ys)) with (Js.Math_max (Z.max x y) ys).
    inversion IH as [| ? ? Hhd Htl]; subst.
    constructor; [lia |]. constructor; [lia | exact Htl].
Qed.


Lemma filter_nonempty_existsb {A : Type} (p : A -> bool) (xs : list A) :
  (0 <? length (filter p xs))%nat = existsb p xs.
Proof.
  induction xs as [| x xs IH]; simpl; [reflexivity |].
  destruct (p x); simpl; [reflexivity | exact IH].
Qed.

Lemma StronglySorted_map {A B : Type} (f : A -> B) (R : B -> B -> Prop) (xs : list A) :
  StronglySorted (fun a b => R (f a) (f b)) xs -> StronglySorted R (map f xs).
Proof.
  induction 1 as [| x xs Hs IH Hx]; simpl; constructor.
  - exact IH.
  - rewrite Forall_map. exact Hx.
Qed.

Lemma filter_map_commute {A B : Type} (f : A -> B) (p : B -> bool) (xs : list A) :
  filter p (map f xs) = map f (filter (fun a => p (f a)) xs).
Proof.
  induction xs as [| x xs IH]; simpl; [reflexivity |].
  destruct (p (f x)); simpl; now rewrite IH.
Qed.

(** ** The lookup tables *)

(** Every entry of the score table lies between 25 and 85. *)
Lemma health_score_table_range :
  Forall (fun entry => (25 <= snd entry <= 85)%Z) CUISINE_HEALTH_SCORES.
Proof.
  unfold CUISINE_HEALTH_SCORES.
  repeat (constructor; [simpl; lia |]). constructor.
Qed.

Lemma health_score_lookup_range (cuisine : string) (v : Z) :
  Js.lookup CUISINE_HEALTH_SCORES cuisine = Some v -> (25 <= v <= 85)%Z.
Proof.
  intros H. apply lookup_In in H.
  pose proof health_score_table_range as R.
  rewrite Forall_forall in R. exact (R _ H).
Qed.


(** ** The classifier *)

Lemma score_step_entries (scores : list Z) (cuisine : string) :
  score_step scores cuisine = scores ++ tableEntries cuisine.
Proof.
  unfold score_step, tableEntries.
  destruct (Js.lookup CUISINE_HEALTH_SCORES cuisine) as [v |] eqn:E.
  - apply health_score_lookup_range in E.
    destruct (Z.eqb_spec v 0); [lia | reflexivity].
  - now rewrite app_nil_r.
Qed.

Lemma score_loop_entries (cuisines : list string) (scores : list Z) :
  fold_left score_step cuisines scores = scores ++ flat_map tableEntries cuisines.
Proof.
  revert scores. induction cuisines as [| c cs IH]; intros scores; simpl.
  - now rewrite app_nil_r.
  - rewrite IH, score_step_entries, <- app_assoc. reflexivity.
Qed.

Lemma detect_loop_filter (searchText : string) (table : list (string * list string))
    (detected : list string) :
  fold_left (detect_step searchText) table detected
  = detected ++ map fst (filter (matchesCuisine searchText) table).
Proof.
  revert detected. induction table as [| [cuisine keywords] rest IH]; intros detected; simpl.
  - now rewrite app_nil_r.
  - rewrite IH. unfold matchesCuisine at 2, Js.some. simpl.
    destruct (existsb _ keywords); simpl.
    + now rewrite <- app_assoc.
    + reflexivity.
Qed.

Section ClassifierFacts.

Variable toLowerCase : string -> string.

(** The array [scores] is the candidate pool. *)
Lemma collectScores_pool (cuisines categories : list string) :
  collectScores toLowerCase cuisines categories
  = candidatePool toLowerCase cuisines categories.
Proof.
  unfold collectScores, candidatePool, healthySignal, Js.some.
  rewrite score_loop_entries. simpl.
  match goal with |- context [if ?b then _ else _] => destruct b end.
  - reflexivity.
  - now rewrite app_nil_r.
Qed.

Lemma candidatePool_range (cuisines categories : list string) :
  Forall (fun s => (0 <= s <= 100)%Z) (candidatePool toLowerCase cuisines categories).
Proof.
  unfold candidatePool. apply Forall_app. split.
  - apply Forall_flat_map. apply Forall_forall. intros c _.
    unfold tableEntries.
    destruct (Js.lookup CUISINE_HEALTH_SCORES c) as [v |] eqn:E; [| constructor].
    apply health_score_lookup_range in E. constructor; [lia | constructor].
  - destruct (healthySignal toLowerCase categories); repeat constructor; lia.
Qed.

Lemma calculateHealthScore_range (cuisines categories : list string) :
  (0 <= calculateHealthScore toLowerCase cuisines categories <= 100)%Z.
Proof.
  unfold calculateHealthScore. rewrite collectScores_pool.
  pose proof (candidatePool_range cuisines categories) as R.
  destruct (candidatePool toLowerCase cuisines categories) as [| s rest]; [lia |].
  rewrite Forall_forall in R. apply R. apply Math_max_In.
Qed.

(** C2. For every list of category strings and every name, the classifier
    returns a non-empty list of cuisine labels: the labels of the table
    entries one of whose keywords occurs in the search text, in table order,
    and the single label "general" when no keyword occurs; and the health
    score computed from these labels is an integer between 0 and 100. *)
Theorem classify_nonempty_and_bounded (categories : list string) (name : string) :
  let searchText := toLowerCase (Js.join " " (categories ++ [name])) in
  let cuisines := detectCuisines toLowerCase categories name in
  cuisines <> []
  /\ cuisines
     = (if existsb (matchesCuisine searchText) CUISINE_KEYWORDS
        then map fst (filter (matchesCuisine searchText) CUISINE_KEYWORDS)
        else ["general"%string])
  /\ (0 <= calculateHealthScore toLowerCase cuisines categories <= 100)%Z.
Proof.
  intros searchText cuisines.
  assert (Hshape :
    cuisines
    = (if existsb (matchesCuisine searchText) CUISINE_KEYWORDS
       then map fst (filter (matchesCuisine searchText) CUISINE_KEYWORDS)
       else ["general"%string])).
  { unfold cuisines, detectCuisines. fold searchText.
    rewrite detect_loop_filter. rewrite app_nil_l.
    rewrite length_map, filter_nonempty_existsb. reflexivity. }
  split; [| split].
  - rewrite Hshape.
    rewrite <- (filter_nonempty_existsb (matchesCuisine searchText) CUISINE_KEYWORDS).
    destruct (filter (matchesCuisine searchText) CUISINE_KEYWORDS); simpl; discriminate.
  - exact Hshape.
  - apply calculateHealthScore_range.
Qed.

(** C3. For every list of matched cuisines (labels none of which names a
    member inherited from [Object.prototype]: the labels of the tables, and
    all that [detectCuisines] returns, are such) and every list of category
    tags, the health score is the maximum of the candidate pool (the
    score-table entries of the labels, plus 80 when one of "healthy",
    "organic", "vegan", "vegetarian" occurs in the lower-cased joined
    category tags), and it is 50 when the pool is empty. *)
Theorem health_score_is_pool_maximum (cuisines categories : list string) :
  Forall (fun label => Js.inherited label = false) cuisines ->
  let pool := candidatePool toLowerCase cuisines categories in
  let score := calculateHealthScore toLowerCase cuisines categories in
  (pool = [] /\ score = 50%Z) \/ (pool <> [] /\ isMaximumOf score pool).
Proof.
  intros _ pool score. unfold score, calculateHealthScore.
  rewrite collectScores_pool. fold pool.
  destruct pool as [| s rest].
  - left. split; reflexivity.
  - right. split; [discriminate |]. split.
    + apply Math_max_In.
    + apply Math_max_upper.
Qed.

End ClassifierFacts.

(** The classifier on the ASCII instance: a Chinese category tag, a name that
    matches nothing, the bonus of a vegan tag over a fast-food label, a
    label that the score table does not list, and a healthy-signal keyword
    that two neighbouring tags spell only without the separating space. *)
Example detectCuisines_chinese :
  detectCuisines Js.asciiToLowerCase ["catering.restaurant.chinese"%string]
    "Wok House" = ["chinese"%string].
Proof. reflexivity. Qed.

Example detectCuisines_several :
  detectCuisines Js.asciiToLowerCase ["catering.restaurant"%string]
    "Seoul BBQ & Grill" = ["korean"%string; "american"%string].
Proof. reflexivity. Qed.

Example detectCuisines_general :
  detectCuisines Js.asciiToLowerCase ["catering.restaurant"%string] "Joe's"
  = ["general"%string].
Proof. reflexivity. Qed.

Example calculateHealthScore_bonus :
  calculateHealthScore Js.asciiToLowerCase ["fast_food"%string]
    ["catering.VEGAN"%string] = 80%Z.
Proof. reflexivity. Qed.

Example calculateHealthScore_default :
  calculateHealthScore Js.asciiToLowerCase ["unlisted"%string]
    ["catering.restaurant"%string] = 50%Z.
Proof. reflexivity. Qed.

Example calculateHealthScore_joined_by_spaces :
  calculateHealthScore Js.asciiToLowerCase [] ["veg"%string; "an"%string] = 50%Z.
Proof. reflexivity. Qed.

(** ** The sort by distance *)

Section SortByKey.

Context {A : Type}.
Variable key : A -> Q.

Local Abbreviation compare := (compareKeys key).

Lemma compareKeys_le (a b : A) :
  Qle_bool (compare a b) 0 = true <-> key a <= key b.
Proof.
  unfold compareKeys. rewrite Qle_bool_iff. split; intros H; lra.
Qed.

Lemma compareKeys_gt (a b : A) :
  Qle_bool (compare a b) 0 = false -> key b < key a.
Proof.
  intros H. destruct (Qlt_le_dec (key b) (key a)) as [Hlt | Hle]; [exact Hlt |].
  apply compareKeys_le in Hle. congruence.
Qed.

Lemma insert_Permutation (x : A) (sorted : list A) :
  Permutation (ArraySort.insert compare x sorted) (x :: sorted).
Proof.
  induction sorted as [| y ys IH]; simpl; [reflexivity |].
  destruct (Qle_bool (compare x y) 0); [reflexivity |].
  rewrite IH. apply perm_swap.
Qed.

Lemma sort_Permutation (xs : list A) :
  Permutation (ArraySort.sort compare xs) xs.
Proof.
  induction xs as [| x xs IH]; simpl; [reflexivity |].
  rewrite insert_Permutation. now constructor.
Qed.

Lemma insert_sorted (x : A) (sorted : list A) :
  StronglySorted (keyLe key) sorted ->
  StronglySorted (keyLe key) (ArraySort.insert compare x sorted).
Proof.
  induction sorted as [| y ys IH]; intros Hs; simpl.
  - constructor; constructor.
  - inversion Hs as [| ? ? Hys Hy]; subst.
    destruct (Qle_bool (compare x y) 0) eqn:E.
    + apply compareKeys_le in E.
      constructor; [exact Hs |].
      constructor; [exact E |].
      eapply Forall_impl; [| exact Hy].
      intros z Hz. unfold keyLe in *. lra.
    + apply compareKeys_gt in E.
      constructor; [now apply IH |].
      eapply Permutation_Forall.
      * symmetry. apply insert_Permutation.
      * constructor; [unfold keyLe; lra | exact Hy].
Qed.

Lemma sort_sorted (xs : list A) :
  StronglySorted (keyLe key) (ArraySort.sort compare xs).
Proof.
  induction xs as [| x xs IH]; simpl.
  - constructor.
  - now apply insert_sorted.
Qed.

(** Inserting an element does not move it past an element of the same key. *)
Lemma insert_stable (d : Q) (x : A) (sorted : list A) :
  filter (hasKey key d) (ArraySort.insert compare x sorted)
  = filter (hasKey key d) (x :: sorted).
Proof.
  induction sorted as [| y ys IH]; simpl; [reflexivity |].
  destruct (Qle_bool (compare x y) 0) eqn:E; [reflexivity |].
  apply compareKeys_gt in E. simpl. rewrite IH. simpl.
  unfold hasKey.
  destruct (Qeq_bool (key y) d) eqn:Ey; destruct (Qeq_bool (key x) d) eqn:Ex;
    try reflexivity.
  apply Qeq_bool_iff in Ey. apply Qeq_bool_iff in Ex. lra.
Qed.

(** Elements of equal key keep their source order. *)
Lemma sort_stable (d : Q) (xs : list A) :
  filter (hasKey key d) (ArraySort.sort compare xs) = filter (hasKey key d) xs.
Proof.
  induction xs as [| x xs IH]; simpl; [reflexivity |].
  rewrite insert_stable. simpl. now rewrite IH.
Qed.

End SortByKey.

Lemma byDistance_compareKeys :
  byDistance = compareKeys featureDistance.
Proof. reflexivity. Qed.

(** Of two features, the farther first, the sort puts the nearer first. *)
Lemma sort_two_features (far near : Feature) :
  featureDistance near < featureDistance far ->
  ArraySort.sort byDistance [far; near] = [near; far].
Proof.
  intros Hlt. simpl.
  destruct (Qle_bool (byDistance far near) 0) eqn:E; [| reflexivity].
  rewrite byDistance_compareKeys in E. apply compareKeys_le in E. lra.
Qed.

(** ** Places search: what one invocation does *)

Section SearchFacts.

Variable toLowerCase : string -> string.
Variable numberToString : Q -> string.
Variable now : string.
Variable provider : PlacesRequest -> FetchResult PlacesData.

Local Abbreviation process := (processRestaurant toLowerCase numberToString).
Local Abbreviation search := (searchRestaurants toLowerCase numberToString now provider).
Local Abbreviation result := (resultFor toLowerCase numberToString now).

(** One invocation logs exactly one call, the request built from the
    arguments, and returns the result that the provider's answer determines. *)
Lemma searchRestaurants_run (latitude longitude : Q) (radius limit : option Q)
    (cuisineFilter : option string) (log : list PlacesRequest) :
  let url := searchUrl latitude longitude radius limit cuisineFilter in
  search latitude longitude radius limit cuisineFilter log
  = (Returned (result latitude longitude radius (provider url)), log ++ [url]).
Proof.
  intros url. unfold searchRestaurants, Async.try_catch, Async.bind, Async.fetch.
  fold (searchUrl latitude longitude radius limit cuisineFilter). fold url.
  unfold resultFor.
  destruct (provider url) as [e | response]; [reflexivity |].
  destruct (ok response); simpl; [| reflexivity].
  unfold Async.response_json.
  destruct (json response) as [e | data]; reflexivity.
Qed.

(** A successful result comes from a response with a success status whose
    body parsed. *)
Lemma resultFor_success (latitude longitude : Q) (radius : option Q)
    (answer : FetchResult PlacesData) :
  success (result latitude longitude radius answer) = true ->
  exists response data,
    answer = Resolved response /\ ok response = true /\ json response = inr data
    /\ result latitude longitude radius answer
       = successResult toLowerCase numberToString now latitude longitude radius data.
Proof.
  unfold resultFor. destruct answer as [e | response]; [discriminate |].
  destruct (ok response) eqn:Hok; [| discriminate].
  destruct (json response) as [e | data] eqn:Hjson; [discriminate |].
  intros _. exists response, data. now rewrite Hok, Hjson.
Qed.

Lemma processRestaurant_distance (f : Feature) :
  distance_meters (process f) = featureDistance f.
Proof. reflexivity. Qed.

(** The backend handler rejects a latitude outside [-90, 90] or a longitude
    outside [-180, 180] with status 400 and issues no outbound call. *)
Lemma restaurantsSearch_rejects_out_of_range (env : option string)
    (body : SearchBody) (latitude longitude : Q) :
  b_latitude body = JNumber latitude ->
  b_longitude body = JNumber longitude ->
  latitude < -90 \/ 90 < latitude \/ longitude < -180 \/ 180 < longitude ->
  exists error_message,
    Async.run (restaurantsSearch toLowerCase numberToString now provider env body)
    = (Returned (mkHttpResponse 400 (EnvError error_message)), []).
Proof.
  intros Hlat Hlon Hrange.
  unfold Async.run, restaurantsSearch, Async.try_catch. rewrite Hlat, Hlon.
  destruct (Js.lt latitude (-90) || Js.gt latitude 90) eqn:Elat.
  - eexists. reflexivity.
  - destruct (Js.lt longitude (-180) || Js.gt longitude 180) eqn:Elon.
    + eexists. reflexivity.
    + exfalso.
      apply orb_false_elim in Elat as [E1 E2].
      apply orb_false_elim in Elon as [E3 E4].
      unfold Js.lt, Js.gt in *.
      apply negb_false_iff, Qle_bool_iff in E1, E2, E3, E4.
      lra.
Qed.

(** C4. For every successful search result, the restaurants are the
    processed features of the provider's response, ordered by non-decreasing
    distance, and restaurants of equal distance are in the order of the
    provider's feature list; in particular a response of two features, the
    farther first (500 m, then 150 m), gives the nearer one, then the
    farther one. *)
Theorem search_sorted_by_distance_stable (latitude longitude : Q)
    (radius limit : option Q) (cuisineFilter : option string) (r : SearchResult) :
  fst (Async.run (search latitude longitude radius limit cuisineFilter)) = Returned r ->
  success r = true ->
  exists response data,
    provider (searchUrl latitude longitude radius limit cuisineFilter) = Resolved response
    /\ json response = inr data
    /\ let provided := map process (Js.or_array (features data) []) in
       StronglySorted (fun a b => distance_meters a <= distance_meters b) (restaurants r)
       /\ Permutation (restaurants r) provided
       /\ (forall d,
             filter (fun x => Qeq_bool (distance_meters x) d) (restaurants r)
             = filter (fun x => Qeq_bool (distance_meters x) d) provided)
       /\ (forall far near,
             features data = Some [far; near] ->
             featureDistance near < featureDistance far ->
             restaurants r = [process near; process far]).
Proof.
  unfold Async.run. rewrite searchRestaurants_run. simpl.
  intros [= <-] Hsuccess.
  destruct (resultFor_success _ _ _ _ Hsuccess)
    as (response & data & Hanswer & _ & Hjson & Hresult).
  exists response, data. split; [exact Hanswer |]. split; [exact Hjson |].
  rewrite Hresult. unfold successResult. simpl.
  split; [| split; [| split]].
  - rewrite byDistance_compareKeys. apply StronglySorted_map.
    exact (sort_sorted featureDistance (Js.or_array (features data) [])).
  - apply Permutation_map. rewrite byDistance_compareKeys. apply sort_Permutation.
  - intros d. rewrite !filter_map_commute. f_equal. rewrite byDistance_compareKeys.
    exact (sort_stable featureDistance d (Js.or_array (features data) [])).
  - intros far near Hfeatures Hlt. rewrite Hfeatures.
    unfold Js.or_array. now rewrite (sort_two_features far near Hlt).
Qed.



(** C7. For every provider response with a non-success status, the search
    returns (it does not throw) a result with [success: false] whose message
    is "Geoapify API error: " followed by the status, after exactly one
    outbound call. *)
Theorem search_provider_error (latitude longitude : Q)
    (radius limit : option Q) (cuisineFilter : option string)
    (response : Response PlacesData) :
  provider (searchUrl latitude longitude radius limit cuisineFilter) = Resolved response ->
  ok response = false ->
  Async.run (search latitude longitude radius limit cuisineFilter)
  = (Returned
       {| success := false;
          user_location := (latitude, longitude);
          search_radius_meters := Js.default_arg radius 2000;
          total_results := 0;
          restaurants := [];
          generated_at := now;
          error_message :=
            Some ("Geoapify API error: " ++ Js.nat_to_string (status response))%string |},
     [searchUrl latitude longitude radius limit cuisineFilter]).
Proof.
  intros Hanswer Hok. unfold Async.run. rewrite searchRestaurants_run. simpl.
  unfold resultFor. rewrite Hanswer, Hok. reflexivity.
Qed.

(** C8, amended. The record's [distance_meters] is the provider's distance,
    and 0 when the feature has none; hence it is non-negative exactly for
    the features whose distance property is missing or non-negative. *)
Theorem distance_meters_from_provider (f : Feature) :
  match p_distance (properties f) with
  | Some d => distance_meters (process f) == d
  | None => distance_meters (process f) = 0
  end
  /\ (0 <= distance_meters (process f)
      <-> forall d, p_distance (properties f) = Some d -> 0 <= d).
Proof.
  rewrite processRestaurant_distance. unfold featureDistance, Js.or_number.
  destruct (p_distance (properties f)) as [d |].
  - assert (Hsame : (if Js.truthy_number d then d else 0) == d).
    { unfold Js.truthy_number. destruct (Qeq_bool d 0) eqn:E; simpl.
      - apply Qeq_bool_iff in E. now symmetry.
      - reflexivity. }
    split; [exact Hsame |]. rewrite Hsame. split.
    + intros Hd d' [= <-]. exact Hd.
    + intros H. now apply H.
  - split; [reflexivity |]. split.
    + intros _ d [=].
    + intros _. apply Qle_refl.
Qed.

(** C10. Every result of a search, successful or not, counts its restaurants
    in [total_results] and echoes the requested latitude, longitude and
    radius (2000 when the radius is omitted). *)
Theorem search_result_echo (latitude longitude : Q)
    (radius limit : option Q) (cuisineFilter : option string)
    (log : list PlacesRequest) :
  exists r,
    fst (search latitude longitude radius limit cuisineFilter log) = Returned r
    /\ total_results r = length (restaurants r)
    /\ user_location r = (latitude, longitude)
    /\ search_radius_meters r = Js.default_arg radius 2000.
Proof.
  rewrite searchRestaurants_run. simpl.
  eexists. split; [reflexivity |].
  unfold resultFor.
  destruct (provider (searchUrl latitude longitude radius limit cuisineFilter))
    as [e | response]; [repeat split |].
  destruct (ok response); [| repeat split].
  destruct (json response) as [e | data]; repeat split.
Qed.

End SearchFacts.

(** C1. [searchRestaurants] of the client library does not check its
    coordinates: at latitude 91 it sends the request to the provider,
    whatever the provider is, and with a provider that answers 200 with no
    features it returns [success: true]. *)
Theorem searchRestaurants_out_of_range_calls_provider :
  (forall provider,
     snd (Async.run (Scenario.outOfRangeSearch provider))
     = [placesUrl "catering.restaurant" 91 0 2000 30])
  /\ Async.run (Scenario.outOfRangeSearch Scenario.emptyProvider)
     = (Returned
          {| success := true;
             user_location := (91, 0);
             search_radius_meters := 2000;
             total_results := 0;
             restaurants := [];
             generated_at := Scenario.clock;
             error_message := None |},
        [placesUrl "catering.restaurant" 91 0 2000 30]).
Proof.
  split.
  - intros provider. unfold Async.run, Scenario.outOfRangeSearch.
    rewrite searchRestaurants_run. reflexivity.
  - reflexivity.
Qed.

(** The backend handler at latitude 91: status 400 and no outbound call. *)
Example restaurantsSearch_latitude_91 :
  Async.run
    (restaurantsSearch Js.asciiToLowerCase AsciiBuiltins.numberToString Scenario.clock
       Scenario.emptyProvider None
       (mkSearchBody (JNumber 91) (JNumber 0) None None TAbsent))
  = (Returned
       (mkHttpResponse 400 (EnvError "Invalid latitude: must be between -90 and 90")),
     []).
Proof. reflexivity. Qed.

(** C8, as stated, fails: the record of a feature whose distance property is
    -5 has [distance_meters] -5. *)
Lemma distance_meters_negative :
  distance_meters
    (processRestaurant Js.asciiToLowerCase AsciiBuiltins.numberToString
       Scenario.negativeDistanceFeature) = -5
  /\ ~ 0 <= distance_meters
            (processRestaurant Js.asciiToLowerCase AsciiBuiltins.numberToString
               Scenario.negativeDistanceFeature).
Proof.
  split; [reflexivity |].
  simpl. intros H. apply Qle_bool_iff in H. discriminate.
Qed.

(** A search returns such a record in a successful result. *)
Example search_returns_negative_distance :
  exists r,
    fst (Async.run (Scenario.hongKongSearch Scenario.negativeProvider None)) = Returned r
    /\ success r = true
    /\ map distance_meters (restaurants r) = [-5].
Proof. eexists. repeat split. Qed.

(** ** Enrichment lookup with a blank name *)

Section OpenRiceFacts.

Variable decodeURIComponent : string -> JsError + string.
Variable trim : string -> string.
Variable fastapi : FastApiCall -> FetchResult FastApiResult.

(** [fetchFromFastAPI] never throws, and issues exactly one call. *)
Lemma fetchFromFastAPI_run (restaurantName : string) (log : list FastApiCall) :
  exists data,
    fetchFromFastAPI fastapi restaurantName log
    = (Returned data, log ++ [mkFastApiCall restaurantName]).
Proof.
  unfold fetchFromFastAPI, Async.try_catch, Async.bind, Async.fetch.
  destruct (fastapi (mkFastApiCall restaurantName)) as [e | response].
  - eexists. reflexivity.
  - destruct (ok response); [| eexists; reflexivity].
    unfold Async.response_json.
    destruct (json response) as [e | result]; [eexists; reflexivity |].
    simpl. destruct (negb (fa_success result) || negb (Js.truthy_object (fa_data result)));
      eexists; reflexivity.
Qed.

(** C9. For every lookup whose path parameter decodes to the empty string or
    to a string that trims to nothing, the gateway answers 400 with
    [{success: false, error: "Restaurant name is required"}] and issues no
    call to the scraping backend. *)
Theorem openrice_blank_name_rejected (params_name restaurantName : string) :
  decodeURIComponent params_name = inr restaurantName ->
  restaurantName = ""%string \/ String.length (trim restaurantName) = 0%nat ->
  let answer := mkHttpResponse 400 (OpenRiceError "Restaurant name is required") in
  Async.run (openriceSearch decodeURIComponent trim fastapi params_name)
  = (Returned answer, [])
  /\ openrice_success (http_body answer) = false.
Proof.
  intros Hdecode Hblank answer. split; [| reflexivity].
  unfold Async.run, openriceSearch, Async.try_catch, Async.bind.
  rewrite Hdecode. simpl.
  destruct Hblank as [-> | Hlen].
  - reflexivity.
  - rewrite Hlen. simpl. now rewrite orb_true_r.
Qed.

End OpenRiceFacts.

(** A lookup of a proper name reaches the scraping backend once. *)
Example openrice_named_lookup_calls_backend :
  Async.run
    (openriceSearch AsciiBuiltins.decodeURIComponent AsciiBuiltins.trim
       Scenario.offlineFastapi "Tim%20Ho%20Wan")
  = (Returned
       (mkHttpResponse 500
          (OpenRiceError "Failed to fetch OpenRice data. Make sure FastAPI is running.")),
     [mkFastApiCall "Tim Ho Wan"]).
Proof. reflexivity. Qed.

(** ** The scenarios of the specification, evaluated *)

(** The end-to-end scenario: the search at (22.3193, 114.1694) with radius
    2000 and filter "chinese" asks for "catering.restaurant.chinese", and the
    features at 500 m and 150 m come back as the 150 m one, then the 500 m one. *)
Example search_orders_150_before_500 :
  exists r,
    Async.run (Scenario.hongKongSearch Scenario.twoFeatureProvider None)
    = (Returned r,
       [placesUrl "catering.restaurant.chinese" (223193 # 10000) (1141694 # 10000)
          2000 30])
    /\ map name (restaurants r) = ["Dim Sum Corner"%string; "Golden Wok"%string]
    /\ map distance_meters (restaurants r) = [150; 500]
    /\ map cuisine_types (restaurants r) = [["chinese"%string]; ["chinese"%string]].
Proof. eexists. repeat split. Qed.

Example processRestaurant_defaults :
  let r := processRestaurant Js.asciiToLowerCase AsciiBuiltins.numberToString
             Scenario.unnamedFeature in
  name r = "Unknown Restaurant"%string /\ id r = "4711"%string
  /\ distance_meters r = 0 /\ cuisine_types r = ["general"%string]
  /\ cuisine_health_score r = 50%Z.
Proof. repeat split. Qed.

(** The limit sent for a requested limit of 1000 is 50, a requested limit of
    10 is sent as it is, and an omitted limit is sent as 30. *)
Example limit_1000_sent_as_50 :
  q_limit (searchUrl 22 114 None (Some 1000) None) = 50
  /\ q_limit (searchUrl 22 114 None (Some 10) None) = 10
  /\ q_limit (searchUrl 22 114 None None None) = 30.
Proof. repeat split. Qed.

(** Witness of C4: the two-feature scenario. *)
Lemma search_sorted_by_distance_stable_witness :
  fst (Async.run (Scenario.hongKongSearch Scenario.twoFeatureProvider None))
  = Returned Scenario.hongKongResult
  /\ success Scenario.hongKongResult = true
  /\ exists response data,
       Scenario.twoFeatureProvider (Scenario.hongKongUrl None) = Resolved response
       /\ json response = inr data
       /\ let provided :=
            map (processRestaurant Js.asciiToLowerCase AsciiBuiltins.numberToString)
              (Js.or_array (features data) []) in
          StronglySorted (fun a b => distance_meters a <= distance_meters b)
            (restaurants Scenario.hongKongResult)
          /\ Permutation (restaurants Scenario.hongKongResult) provided
          /\ (forall d,
                filter (fun x => Qeq_bool (distance_meters x) d)
                  (restaurants Scenario.hongKongResult)
                = filter (fun x => Qeq_bool (distance_meters x) d) provided)
          /\ (forall far near,
                features data = Some [far; near] ->
                featureDistance near < featureDistance far ->
                restaurants Scenario.hongKongResult
                = [processRestaurant Js.asciiToLowerCase AsciiBuiltins.numberToString near;
                   processRestaurant Js.asciiToLowerCase AsciiBuiltins.numberToString far]).
Proof.
  split; [reflexivity |]. split; [reflexivity |].
  apply (search_sorted_by_distance_stable Js.asciiToLowerCase
           AsciiBuiltins.numberToString Scenario.clock Scenario.twoFeatureProvider
           (223193 # 10000) (1141694 # 10000) (Some 2000) None (Some "chinese"%string)
           Scenario.hongKongResult);
    reflexivity.
Defined.





(** Witness of C3: two detected labels and an organic category tag. *)
Lemma health_score_is_pool_maximum_witness :
  Forall (fun label => Js.inherited label = false)
    ["japanese"%string; "fast_food"%string]
  /\ let pool :=
       candidatePool Js.asciiToLowerCase ["japanese"%string; "fast_food"%string]
         ["catering.restaurant.Organic"%string] in
     let score :=
       calculateHealthScore Js.asciiToLowerCase ["japanese"%string; "fast_food"%string]
         ["catering.restaurant.Organic"%string] in
     (pool = [] /\ score = 50%Z) \/ (pool <> [] /\ isMaximumOf score pool).
Proof.
  assert (H : Forall (fun label => Js.inherited label = false)
                ["japanese"%string; "fast_food"%string])
    by (repeat constructor).
  split; [exact H |].
  exact (health_score_is_pool_maximum Js.asciiToLowerCase
           ["japanese"%string; "fast_food"%string]
           ["catering.restaurant.Organic"%string] H).
Defined.

(** Witness of C7: a provider that answers 404. *)
Lemma search_provider_error_witness :
  Scenario.failingProvider (Scenario.hongKongUrl None) = Resolved Scenario.notFound
  /\ ok Scenario.notFound = false
  /\ Async.run (Scenario.hongKongSearch Scenario.failingProvider None)
     = (Returned
          {| success := false;
             user_location := (223193 # 10000, 1141694 # 10000);
             search_radius_meters := 2000;
             total_results := 0;
             restaurants := [];
             generated_at := Scenario.clock;
             error_message := Some "Geoapify API error: 404"%string |},
        [Scenario.hongKongUrl None]).
Proof.
  split; [reflexivity |]. split; [reflexivity |].
  apply (search_provider_error Js.asciiToLowerCase AsciiBuiltins.numberToString
           Scenario.clock Scenario.failingProvider
           (223193 # 10000) (1141694 # 10000) (Some 2000) None (Some "chinese"%string)
           Scenario.notFound);
    reflexivity.
Defined.

(** Witness of C8, amended: the feature at 150 m. *)
Lemma distance_meters_from_provider_witness :
  (forall d, p_distance (properties Scenario.nearFeature) = Some d -> 0 <= d)
  /\ distance_meters
       (processRestaurant Js.asciiToLowerCase AsciiBuiltins.numberToString
          Scenario.nearFeature) == 150
  /\ 0 <= distance_meters
            (processRestaurant Js.asciiToLowerCase AsciiBuiltins.numberToString
               Scenario.nearFeature).
Proof.
  assert (H : forall d, p_distance (properties Scenario.nearFeature) = Some d -> 0 <= d).
  { intros d [= <-]. apply Qle_bool_iff. reflexivity. }
  split; [exact H |].
  destruct (distance_meters_from_provider Js.asciiToLowerCase
              AsciiBuiltins.numberToString Scenario.nearFeature) as [Hsame Hiff].
  split; [exact Hsame |]. apply Hiff. exact H.
Defined.

(** Witness of C9: the path parameter [%20%09] decodes to a space and a tab. *)
Lemma openrice_blank_name_rejected_witness :
  AsciiBuiltins.decodeURIComponent "%20%09"
  = inr (String " " (String (ascii_of_nat 9) EmptyString))
  /\ String.length
       (AsciiBuiltins.trim (String " " (String (ascii_of_nat 9) EmptyString))) = 0%nat
  /\ Async.run
       (openriceSearch AsciiBuiltins.decodeURIComponent AsciiBuiltins.trim
          Scenario.offlineFastapi "%20%09")
     = (Returned (mkHttpResponse 400 (OpenRiceError "Restaurant name is required")), []).
Proof.
  split; [reflexivity |]. split; [reflexivity |].
  apply (openrice_blank_name_rejected AsciiBuiltins.decodeURIComponent
           AsciiBuiltins.trim Scenario.offlineFastapi "%20%09"
           (String " " (String (ascii_of_nat 9) EmptyString))).
  - reflexivity.
  - right. reflexivity.
Defined.

(** * Further properties of the code *)

(** ** The classifier and the display helpers *)

Lemma or_string_nonempty (v : option string) (d : string) :
  d <> ""%string -> Js.or_string v d <> ""%string.
Proof.
  intros Hd. unfold Js.or_string, Js.truthy_string.
  destruct v as [s |]; [| exact Hd].
  destruct (String.eqb s "") eqn:E; simpl; [exact Hd |].
  now apply String.eqb_neq in E.
Qed.

Lemma append_nonempty_r (a b : string) :
  b <> ""%string -> (a ++ b)%string <> ""%string.
Proof.
  intros Hb. destruct a; simpl; [exact Hb | discriminate].
Qed.

Lemma NoDup_map_filter {A B : Type} (f : A -> B) (p : A -> bool) (xs : list A) :
  NoDup (map f xs) -> NoDup (map f (filter p xs)).
Proof.
  induction xs as [| x xs IH]; simpl; intros H; [constructor |].
  inversion H as [| ? ? Hnotin Hrest]; subst.
  destruct (p x); simpl; [| now apply IH].
  constructor; [| now apply IH].
  intros Hin. apply Hnotin.
  apply in_map_iff in Hin as (y & Hy & Hiny).
  apply filter_In in Hiny as [Hiny _].
  apply in_map_iff. now exists y.
Qed.

Lemma distinct_NoDup (xs : list string) : distinct xs = true -> NoDup xs.
Proof.
  induction xs as [| x xs IH]; simpl; intros H; [constructor |].
  apply andb_prop in H as [Hx Hrest].
  constructor; [| now apply IH].
  intros Hin. apply negb_true_iff in Hx.
  assert (Hex : existsb (String.eqb x) xs = true).
  { apply existsb_exists. exists x. split; [exact Hin | apply String.eqb_refl]. }
  congruence.
Qed.

Lemma keyword_labels_NoDup : NoDup (map fst CUISINE_KEYWORDS).
Proof. apply distinct_NoDup. reflexivity. Qed.

(** Every label of the keyword table, and "general", has a score and an
    emoji of its own. *)
Lemma keyword_labels_covered :
  Forall (fun label =>
            (exists v, Js.lookup CUISINE_HEALTH_SCORES label = Some v)
            /\ exists e, Js.lookup cuisineEmojis label = Some e
                         /\ Js.truthy_string e = true)
    knownLabels.
Proof.
  simpl. repeat (constructor; [split; eexists; [| split]; reflexivity |]).
  constructor.
Qed.

Section ClassifierExtras.

Variable toLowerCase : string -> string.
Variable numberToString : Q -> string.

Local Abbreviation process := (processRestaurant toLowerCase numberToString).

Lemma detectCuisines_shape (categories : list string) (name : string) :
  let searchText := toLowerCase (Js.join " " (categories ++ [name])) in
  detectCuisines toLowerCase categories name
  = (if existsb (matchesCuisine searchText) CUISINE_KEYWORDS
     then map fst (filter (matchesCuisine searchText) CUISINE_KEYWORDS)
     else ["general"%string]).
Proof.
  intros searchText. unfold detectCuisines. fold searchText.
  rewrite detect_loop_filter, app_nil_l, length_map, filter_nonempty_existsb.
  reflexivity.
Qed.

Lemma detectCuisines_known (categories : list string) (name : string) :
  Forall (fun label => In label knownLabels)
    (detectCuisines toLowerCase categories name).
Proof.
  rewrite detectCuisines_shape.
  set (searchText := toLowerCase (Js.join " " (categories ++ [name]))).
  destruct (existsb (matchesCuisine searchText) CUISINE_KEYWORDS).
  - apply Forall_forall. intros label Hin. apply in_or_app. left.
    apply in_map_iff in Hin as (entry & <- & Hentry).
    apply filter_In in Hentry as [Hentry _]. now apply in_map.
  - constructor; [| constructor]. apply in_or_app. right. now left.
Qed.

(** X1. The labels that [detectCuisines] returns are labels of the keyword
    table or the single label "general", and no label occurs twice. *)
Theorem detectCuisines_known_distinct (categories : list string) (name : string) :
  let cuisines := detectCuisines toLowerCase categories name in
  Forall (fun label => In label knownLabels) cuisines /\ NoDup cuisines.
Proof.
  intros cuisines. split; [apply detectCuisines_known |].
  unfold cuisines. rewrite detectCuisines_shape.
  set (searchText := toLowerCase (Js.join " " (categories ++ [name]))).
  destruct (existsb (matchesCuisine searchText) CUISINE_KEYWORDS).
  - apply NoDup_map_filter. exact keyword_labels_NoDup.
  - constructor; [intros [] | constructor].
Qed.

Lemma detectCuisines_nonempty (categories : list string) (name : string) :
  detectCuisines toLowerCase categories name <> [].
Proof.
  rewrite detectCuisines_shape.
  set (searchText := toLowerCase (Js.join " " (categories ++ [name]))).
  rewrite <- (filter_nonempty_existsb (matchesCuisine searchText) CUISINE_KEYWORDS).
  destruct (filter (matchesCuisine searchText) CUISINE_KEYWORDS); simpl; discriminate.
Qed.

Lemma detected_label_covered (categories : list string) (name label : string) :
  In label (detectCuisines toLowerCase categories name) ->
  (exists v, Js.lookup CUISINE_HEALTH_SCORES label = Some v)
  /\ exists e, Js.lookup cuisineEmojis label = Some e /\ Js.truthy_string e = true.
Proof.
  intros Hin.
  pose proof (detectCuisines_known categories name) as Hknown.
  rewrite Forall_forall in Hknown.
  pose proof keyword_labels_covered as Hcov. rewrite Forall_forall in Hcov.
  apply Hcov. now apply Hknown.
Qed.

End ClassifierExtras.

Lemma Qle_bool_false_lt (a b : Q) : Qle_bool a b = false -> b < a.
Proof.
  intros H. destruct (Qlt_le_dec b a) as [Hlt | Hle]; [exact Hlt |].
  apply Qle_bool_iff in Hle. congruence.
Qed.

Lemma Qle_bool_inject_Z (a b : Z) : (a <= b)%Z -> Qle_bool (inject_Z a) (inject_Z b) = true.
Proof. intros H. apply Qle_bool_iff. now rewrite <- Zle_Qle. Qed.

(** X2. The four colour and label helpers cut the scores in the same three
    bands: from 75 up "Healthy" and green, from 50 up to 75 "Moderate" and
    amber, below 50 "Indulgent" and red. *)
Theorem health_bands_agree (score : Q) :
  (75 <= score
   /\ getHealthScoreLabel score = "Healthy"%string
   /\ getHealthScoreColor score = "text-green-500"%string
   /\ getHealthScoreBg score = "bg-green-500/10 border-green-500/20"%string
   /\ getMarkerColor score = "#22c55e"%string)
  \/ (50 <= score /\ score < 75
      /\ getHealthScoreLabel score = "Moderate"%string
      /\ getHealthScoreColor score = "text-amber-500"%string
      /\ getHealthScoreBg score = "bg-amber-500/10 border-amber-500/20"%string
      /\ getMarkerColor score = "#f59e0b"%string)
  \/ (score < 50
      /\ getHealthScoreLabel score = "Indulgent"%string
      /\ getHealthScoreColor score = "text-red-500"%string
      /\ getHealthScoreBg score = "bg-red-500/10 border-red-500/20"%string
      /\ getMarkerColor score = "#ef4444"%string).
Proof.
  unfold getHealthScoreLabel, getHealthScoreColor, getHealthScoreBg, getMarkerColor.
  destruct (Qle_bool 75 score) eqn:E75.
  - left. apply Qle_bool_iff in E75. repeat split. exact E75.
  - apply Qle_bool_false_lt in E75.
    destruct (Qle_bool 50 score) eqn:E50.
    + right. left. apply Qle_bool_iff in E50. repeat split; assumption.
    + right. right. apply Qle_bool_false_lt in E50. repeat split. exact E50.
Qed.

Section ScoreExtras.

Variable toLowerCase : string -> string.
Variable numberToString : Q -> string.

Local Abbreviation process := (processRestaurant toLowerCase numberToString).
Local Abbreviation score := (calculateHealthScore toLowerCase).

Lemma score_dominates_pool (cuisines categories : list string) (v : Z) :
  In v (candidatePool toLowerCase cuisines categories) ->
  (v <= score cuisines categories)%Z.
Proof.
  unfold calculateHealthScore. rewrite collectScores_pool.
  destruct (candidatePool toLowerCase cuisines categories) as [| s rest]; [intros [] |].
  intros Hin. pose proof (Math_max_upper rest s) as Hupper.
  rewrite Forall_forall in Hupper. now apply Hupper.
Qed.

Lemma label_entry_in_pool (cuisines categories : list string) (label : string) (v : Z) :
  In label cuisines ->
  Js.lookup CUISINE_HEALTH_SCORES label = Some v ->
  In v (candidatePool toLowerCase cuisines categories).
Proof.
  intros Hin Hlookup. unfold candidatePool. apply in_or_app. left.
  apply in_flat_map. exists label. split; [exact Hin |].
  unfold tableEntries. rewrite Hlookup. now left.
Qed.

Lemma candidatePool_tight (cuisines categories : list string) :
  Forall (fun s => (25 <= s <= 85)%Z) (candidatePool toLowerCase cuisines categories).
Proof.
  unfold candidatePool. apply Forall_app. split.
  - apply Forall_flat_map. apply Forall_forall. intros c _.
    unfold tableEntries.
    destruct (Js.lookup CUISINE_HEALTH_SCORES c) as [v |] eqn:E; [| constructor].
    apply health_score_lookup_range in E. constructor; [lia | constructor].
  - destruct (healthySignal toLowerCase categories); repeat constructor; lia.
Qed.

(** X3. The health score of a processed restaurant is at least the table
    score of each of its cuisine labels, every one of which has a table
    score, so the default of 50 for an empty pool is never what a processed
    restaurant gets; and it lies between 25 and 85. *)
Theorem processRestaurant_score_covers_labels (f : Feature) :
  let r := process f in
  Forall (fun label =>
            exists v, Js.lookup CUISINE_HEALTH_SCORES label = Some v
                      /\ (v <= cuisine_health_score r)%Z)
    (cuisine_types r)
  /\ candidatePool toLowerCase (cuisine_types r) (categories r) <> []
  /\ (25 <= cuisine_health_score r <= 85)%Z.
Proof.
  intros r. unfold r, processRestaurant. simpl.
  set (cats := Js.or_array (p_categories (properties f)) []).
  set (nm := Js.or_string (p_name (properties f)) "Unknown Restaurant").
  set (cuisines := detectCuisines toLowerCase cats nm).
  assert (Hcovered : forall label, In label cuisines ->
            exists v, Js.lookup CUISINE_HEALTH_SCORES label = Some v
                      /\ In v (candidatePool toLowerCase cuisines cats)).
  { intros label Hin.
    destruct (detected_label_covered toLowerCase cats nm label Hin) as [[v Hv] _].
    exists v. split; [exact Hv |]. now apply label_entry_in_pool with label. }
  assert (Hpool : candidatePool toLowerCase cuisines cats <> []).
  { pose proof (detectCuisines_nonempty toLowerCase cats nm) as Hne.
    fold cuisines in Hne. destruct cuisines as [| label rest] eqn:E; [congruence |].
    destruct (Hcovered label (or_introl eq_refl)) as (v & _ & Hin).
    intros Hnil. rewrite Hnil in Hin. exact Hin. }
  split; [| split; [exact Hpool |]].
  - apply Forall_forall. intros label Hin.
    destruct (Hcovered label Hin) as (v & Hv & Hinpool).
    exists v. split; [exact Hv |]. now apply score_dominates_pool.
  - unfold calculateHealthScore. rewrite collectScores_pool.
    pose proof (candidatePool_tight cuisines cats) as Htight.
    destruct (candidatePool toLowerCase cuisines cats) as [| s rest]; [congruence |].
    rewrite Forall_forall in Htight. apply Htight. apply Math_max_In.
Qed.

(** X4. When a healthy-signal keyword occurs in the category text, the
    health score is at least 80, whichever cuisine labels were detected, and
    the restaurant is labelled "Healthy" and shown in green.  The labels are
    those the score table is read at as a table: none of them names a member
    that every object inherits, such as "constructor", for which the code's
    score is not a number. *)
Theorem healthy_signal_scores_healthy (cuisines categories : list string) :
  Forall (fun label => Js.inherited label = false) cuisines ->
  healthySignal toLowerCase categories = true ->
  (80 <= score cuisines categories)%Z
  /\ getHealthScoreLabel (inject_Z (score cuisines categories)) = "Healthy"%string
  /\ getHealthScoreColor (inject_Z (score cuisines categories)) = "text-green-500"%string.
Proof.
  intros _ Hsignal.
  assert (H80 : (80 <= score cuisines categories)%Z).
  { apply score_dominates_pool. unfold candidatePool. rewrite Hsignal.
    apply in_or_app. right. now left. }
  split; [exact H80 |].
  unfold getHealthScoreLabel, getHealthScoreColor.
  change 75 with (inject_Z 75).
  rewrite Qle_bool_inject_Z by lia. split; reflexivity.
Qed.

(** X5. Every label that [detectCuisines] returns has an emoji of its own in
    the table of [getCuisineEmoji], which [getCuisineEmoji] returns when
    lower-casing leaves the label as it is. *)
Theorem getCuisineEmoji_detected (categories : list string) (name label : string) :
  In label (detectCuisines toLowerCase categories name) ->
  toLowerCase label = label ->
  exists emoji,
    In (label, emoji) cuisineEmojis
    /\ getCuisineEmoji toLowerCase label = emoji.
Proof.
  intros Hin Hlower.
  destruct (detected_label_covered toLowerCase categories name label Hin)
    as [_ (emoji & Hlookup & Htruthy)].
  exists emoji. split; [now apply lookup_In |].
  unfold getCuisineEmoji, Js.or_string. rewrite Hlower, Hlookup, Htruthy. reflexivity.
Qed.

End ScoreExtras.

Lemma half_up_sandwich (q m : Q) :
  q <= m + (1 # 2) -> m + (1 # 2) < q + 1 -> m < 1000 ->
  q - (1 # 2) <= m /\ m < q + (1 # 2) /\ q < 1001 /\ ((1999 # 2) <= m -> 999 < q).
Proof. intros H1 H2 H3. repeat split; lra. Qed.

Section DistanceDisplay.

Variable toFixed1 : Q -> string.

(** X6. Below 1000 metres [formatDistance] prints the nearest integer (a tie
    going up) followed by "m"; the integer can be 1000: from 999.5 metres on
    the text is "1000m", not a distance in kilometres. *)
Theorem formatDistance_below_1000 (meters : Q) :
  meters < 1000 ->
  let n := Math_round meters in
  formatDistance toFixed1 meters = (int_to_string n ++ "m")%string
  /\ inject_Z n - (1 # 2) <= meters
  /\ meters < inject_Z n + (1 # 2)
  /\ (n <= 1000)%Z
  /\ ((1999 # 2) <= meters -> formatDistance toFixed1 meters = "1000m"%string).
Proof.
  intros Hlt n.
  assert (Hbranch : Js.lt meters 1000 = true).
  { unfold Js.lt. apply negb_true_iff.
    destruct (Qle_bool 1000 meters) eqn:E; [| reflexivity].
    apply Qle_bool_iff in E. lra. }
  assert (Hformat : formatDistance toFixed1 meters = (int_to_string n ++ "m")%string).
  { unfold formatDistance. now rewrite Hbranch. }
  pose proof (Qfloor_le (meters + (1 # 2))) as Hfloor.
  pose proof (Qlt_floor (meters + (1 # 2))) as Hceil.
  rewrite inject_Z_plus in Hceil. change (inject_Z 1) with (1 : Q) in Hceil.
  fold (Math_round meters) in Hfloor, Hceil. fold n in Hfloor, Hceil.
  destruct (half_up_sandwich (inject_Z n) meters Hfloor Hceil Hlt)
    as (Hlow & Hhigh & Hupper & Hedge).
  change (1001 : Q) with (inject_Z 1001) in Hupper. rewrite <- Zlt_Qlt in Hupper.
  split; [exact Hformat |]. split; [exact Hlow |]. split; [exact Hhigh |].
  split; [lia |].
  intros Hnear. specialize (Hedge Hnear).
  change (999 : Q) with (inject_Z 999) in Hedge. rewrite <- Zlt_Qlt in Hedge.
  rewrite Hformat. replace n with 1000%Z by lia. reflexivity.
Qed.

End DistanceDisplay.

(** ** Places search: results, records and the backend handler *)

Section SearchExtras.

Variable toLowerCase : string -> string.
Variable numberToString : Q -> string.
Variable now : string.
Variable provider : PlacesRequest -> FetchResult PlacesData.

Local Abbreviation process := (processRestaurant toLowerCase numberToString).
Local Abbreviation search := (searchRestaurants toLowerCase numberToString now provider).
Local Abbreviation backend := (restaurantsSearch toLowerCase numberToString now provider).
Local Abbreviation result := (resultFor toLowerCase numberToString now).

Lemma failureResult_message (latitude longitude : Q) (radius : option Q) (e : JsError) :
  exists m,
    error_message (failureResult now latitude longitude radius e) = Some m
    /\ m <> ""%string.
Proof.
  eexists. split; [reflexivity |]. apply or_string_nonempty. discriminate.
Qed.

(** X7. A search result carries an error message exactly when it is a
    failure: a successful result has none, and a failed one has no
    restaurants, a count of 0 and a message that is not empty. *)
Theorem search_error_message_iff_failure (latitude longitude : Q)
    (radius limit : option Q) (cuisineFilter : option string)
    (log : list PlacesRequest) :
  exists r,
    fst (search latitude longitude radius limit cuisineFilter log) = Returned r
    /\ ((success r = true /\ error_message r = None)
        \/ (success r = false /\ restaurants r = [] /\ total_results r = 0%nat
            /\ exists m, error_message r = Some m /\ m <> ""%string)).
Proof.
  rewrite searchRestaurants_run. simpl. eexists. split; [reflexivity |].
  unfold resultFor.
  destruct (provider (searchUrl latitude longitude radius limit cuisineFilter))
    as [e | response].
  - right. repeat split. apply failureResult_message.
  - destruct (ok response).
    + destruct (json response) as [e | data].
      * right. repeat split. apply failureResult_message.
      * left. split; reflexivity.
    + right. repeat split. apply failureResult_message.
Qed.


Lemma processRestaurant_texts (f : Feature) :
  name (process f) <> ""%string
  /\ id (process f) <> ""%string
  /\ address_line1 (process f) <> ""%string.
Proof.
  unfold processRestaurant. simpl. repeat split.
  - apply or_string_nonempty. discriminate.
  - apply or_string_nonempty. apply or_string_nonempty.
    apply append_nonempty_r. discriminate.
  - apply or_string_nonempty. discriminate.
Qed.

(** X9. Every restaurant of every search result has a name, an identifier
    and a first address line that are not empty, and its identifier is the
    provider's place id whenever the feature has a non-empty one. *)
Theorem search_restaurants_have_texts (latitude longitude : Q)
    (radius limit : option Q) (cuisineFilter : option string)
    (log : list PlacesRequest) :
  exists r,
    fst (search latitude longitude radius limit cuisineFilter log) = Returned r
    /\ Forall (fun x =>
                 name x <> ""%string /\ id x <> ""%string
                 /\ address_line1 x <> ""%string
                 /\ (forall p, place_id x = Some p -> p <> ""%string -> id x = p))
         (restaurants r).
Proof.
  rewrite searchRestaurants_run. simpl. eexists. split; [reflexivity |].
  unfold resultFor.
  destruct (provider (searchUrl latitude longitude radius limit cuisineFilter))
    as [e | response]; [constructor |].
  destruct (ok response); [| constructor].
  destruct (json response) as [e | data]; [constructor |].
  unfold successResult. simpl. apply Forall_map. apply Forall_forall. intros f _.
  destruct (processRestaurant_texts f) as (Hname & Hid & Haddress).
  repeat split; try assumption.
  intros p Hp Hnonempty. unfold processRestaurant in *. simpl in *.
  rewrite Hp. unfold Js.or_string, Js.truthy_string.
  apply String.eqb_neq in Hnonempty. now rewrite Hnonempty.
Qed.




(** A body whose cuisine filter is the number 5, with coordinates that pass:
    the handler answers 500 and the provider is never called. *)
Example restaurantsSearch_numeric_filter :
  Async.run
    (restaurantsSearch Js.asciiToLowerCase AsciiBuiltins.numberToString Scenario.clock
       Scenario.twoFeatureProvider None Cases.numericFilterBody)
  = (Returned (mkHttpResponse 500
                 (EnvError "cuisine_filter.toLowerCase is not a function")),
     []).
Proof. reflexivity. Qed.

End SearchExtras.

(** ** The enrichment routes and the client's image lookup *)

Section OpenRiceExtras.

Variable decodeURIComponent : string -> JsError + string.
Variable trim : string -> string.
Variable fastapi : FastApiCall -> FetchResult FastApiResult.

Local Abbreviation handler := (openriceSearch decodeURIComponent trim fastapi).

(** What [fetchFromFastAPI] returns, by what the scraping backend answers. *)
Lemma fetchFromFastAPI_result (restaurantName : string) (log : list FastApiCall) :
  fetchFromFastAPI fastapi restaurantName log
  = (Returned
       match fastapi (mkFastApiCall restaurantName) with
       | Rejected _ => None
       | Resolved response =>
           if ok response
           then match json response with
                | inl _ => None
                | inr result =>
                    if fa_success result then fa_data result else None
                end
           else None
       end,
     log ++ [mkFastApiCall restaurantName]).
Proof.
  unfold fetchFromFastAPI, Async.try_catch, Async.bind, Async.fetch.
  destruct (fastapi (mkFastApiCall restaurantName)) as [e | response]; [reflexivity |].
  destruct (ok response); [| reflexivity].
  unfold Async.response_json.
  destruct (json response) as [e | result]; [reflexivity |]. simpl.
  destruct (fa_success result); simpl; [| reflexivity].
  destruct (fa_data result); reflexivity.
Qed.

(** X12. [fetchFromFastAPI] never throws and issues exactly one call, for the
    name it was given; it returns a record exactly when the scraping backend
    answers with a success status and a body that parses, says
    [success: true] and carries data, and the record is that data. *)
Theorem fetchFromFastAPI_some_iff (restaurantName : string) (log : list FastApiCall) :
  exists found,
    fetchFromFastAPI fastapi restaurantName log
    = (Returned found, log ++ [mkFastApiCall restaurantName])
    /\ forall data,
         found = Some data
         <-> exists response result,
               fastapi (mkFastApiCall restaurantName) = Resolved response
               /\ ok response = true /\ json response = inr result
               /\ fa_success result = true /\ fa_data result = Some data.
Proof.
  rewrite fetchFromFastAPI_result. eexists. split; [reflexivity |].
  intros data. split.
  - destruct (fastapi (mkFastApiCall restaurantName)) as [e | response]; [discriminate |].
    destruct (ok response) eqn:Hok; [| discriminate].
    destruct (json response) as [e | result] eqn:Hjson; [discriminate |].
    destruct (fa_success result) eqn:Hs; [| discriminate].
    intros Hdata. now exists response, result.
  - intros (response & result & -> & Hok & Hjson & Hs & Hdata).
    now rewrite Hok, Hjson, Hs.
Qed.

(** What the lookup handler answers once the name has passed the check. *)
Lemma openriceSearch_named (params_name restaurantName : string)
    (log : list FastApiCall) :
  decodeURIComponent params_name = inr restaurantName ->
  negb (Js.truthy_string restaurantName)
  || (String.length (trim restaurantName) =? 0)%nat = false ->
  exists found,
    fetchFromFastAPI fastapi restaurantName log
    = (Returned found, log ++ [mkFastApiCall restaurantName])
    /\ handler params_name log
       = (Returned
            match found with
            | Some data => mkHttpResponse 200 (OpenRiceOk data)
            | None =>
                mkHttpResponse 500
                  (OpenRiceError
                     "Failed to fetch OpenRice data. Make sure FastAPI is running.")
            end,
          log ++ [mkFastApiCall restaurantName]).
Proof.
  intros Hdecode Hcheck.
  eexists. split; [apply fetchFromFastAPI_result |].
  unfold openriceSearch, Async.try_catch, Async.bind.
  rewrite Hdecode. unfold Async.ret at 1. rewrite Hcheck.
  rewrite fetchFromFastAPI_result.
  match goal with
  | |- context [match ?found with Some _ => _ | None => _ end _] =>
      destruct found; reflexivity
  end.
Qed.

(** X13. The lookup handler never throws and answers 200, 400 or 500; the
    body says [success: true] exactly for 200; it calls the scraping backend
    at most once, and the name it sends is the decoded path parameter as it
    is, not trimmed. *)
Theorem openriceSearch_classification (params_name : string)
    (log : list FastApiCall) :
  exists resp log',
    handler params_name log = (Returned resp, log')
    /\ (http_status resp = 200 \/ http_status resp = 400 \/ http_status resp = 500)%N
    /\ (openrice_success (http_body resp) = true <-> http_status resp = 200%N)
    /\ (log' = log
        \/ exists restaurantName,
             decodeURIComponent params_name = inr restaurantName
             /\ log' = log ++ [mkFastApiCall restaurantName]).
Proof.
  destruct (decodeURIComponent params_name) as [e | restaurantName] eqn:Hdecode.
  - unfold openriceSearch, Async.try_catch, Async.bind. rewrite Hdecode.
    eexists. eexists. split; [reflexivity |]. simpl.
    repeat split; try (now right; right); try discriminate. now left.
  - destruct (negb (Js.truthy_string restaurantName)
              || (String.length (trim restaurantName) =? 0)%nat) eqn:Hcheck.
    + unfold openriceSearch, Async.try_catch, Async.bind. rewrite Hdecode.
      unfold Async.ret at 1. rewrite Hcheck.
      eexists. eexists. split; [reflexivity |]. simpl.
      repeat split; try (now right; left); try discriminate. now left.
    + destruct (openriceSearch_named params_name restaurantName log Hdecode Hcheck)
        as (found & _ & Hrun).
      rewrite Hrun. eexists. eexists. split; [reflexivity |].
      destruct found as [data |]; simpl.
      * repeat split; try (now left); try discriminate.
        right. now exists restaurantName.
      * repeat split; try (now right; right); try discriminate.
        right. now exists restaurantName.
Qed.

(** X14. When the path parameter does not decode (a malformed escape), the
    lookup handler answers 500 with the message of the error, or "Internal
    server error" when that message is empty, and does not call the scraping
    backend. *)
Theorem openriceSearch_malformed_name (params_name : string) (e : JsError)
    (log : list FastApiCall) :
  decodeURIComponent params_name = inl e ->
  handler params_name log
  = (Returned
       (mkHttpResponse 500
          (OpenRiceError
             (if String.eqb (message e) "" then "Internal server error"%string
              else message e))),
     log).
Proof.
  intros Hdecode. unfold openriceSearch, Async.try_catch, Async.bind.
  rewrite Hdecode. unfold Async.throw, Async.ret, Js.or_string, Js.truthy_string.
  destruct (String.eqb (message e) ""); reflexivity.
Qed.

(** X15. When the decoded name is not blank and the scraping backend answers
    with a success status, [success: true] and data, the lookup handler
    answers 200 with that data unchanged, after one call that carries the
    decoded name. *)
Theorem openriceSearch_relays_data (params_name restaurantName : string)
    (response : Response FastApiResult) (result : FastApiResult) (data : OpenRiceData)
    (log : list FastApiCall) :
  decodeURIComponent params_name = inr restaurantName ->
  restaurantName <> ""%string ->
  String.length (trim restaurantName) <> 0%nat ->
  fastapi (mkFastApiCall restaurantName) = Resolved response ->
  ok response = true ->
  json response = inr result ->
  fa_success result = true ->
  fa_data result = Some data ->
  handler params_name log
  = (Returned (mkHttpResponse 200 (OpenRiceOk data)),
     log ++ [mkFastApiCall restaurantName]).
Proof.
  intros Hdecode Hname Htrim Hanswer Hok Hjson Hsuccess Hdata.
  assert (Hcheck : negb (Js.truthy_string restaurantName)
                   || (String.length (trim restaurantName) =? 0)%nat = false).
  { unfold Js.truthy_string. apply String.eqb_neq in Hname. rewrite Hname.
    apply Nat.eqb_neq in Htrim. now rewrite Htrim. }
  destruct (openriceSearch_named params_name restaurantName log Hdecode Hcheck)
    as (found & Hfound & Hrun).
  rewrite Hrun. rewrite fetchFromFastAPI_result in Hfound.
  rewrite Hanswer, Hok, Hjson, Hsuccess, Hdata in Hfound.
  injection Hfound as <-. reflexivity.
Qed.

End OpenRiceExtras.

Section BatchExtras.

Variable BatchResult : Type.
Variable fastapiBatch : BatchCall -> FetchResult BatchResult.

Local Abbreviation batch := (openriceBatch BatchResult fastapiBatch).

(** X16. The batch route answers 400 without calling the scraping backend
    when [restaurants] is not an array or is empty; for a non-empty array it
    never throws and issues exactly one call, which carries the names as
    they came, in order, with [get_details: true].  It relays the backend's
    result unchanged with status 200 when the backend answers with a success
    status and a body that parses; it answers 500 with "FastAPI batch
    request failed" when the status is not a success; and it answers 500
    with the message of the error, or "Internal server error" when that is
    empty, when the call fails or the body does not parse. *)
Theorem openriceBatch_behaviour (log : list BatchCall) :
  batch NotAnArray log
  = (Returned (mkHttpResponse 400 (BatchError "restaurants array is required")), log)
  /\ batch (ArrayOf []) log
     = (Returned (mkHttpResponse 400 (BatchError "restaurants array is required")), log)
  /\ forall first rest,
       let names := first :: rest in
       let call := mkBatchCall names true in
       exists resp,
         batch (ArrayOf names) log = (Returned resp, log ++ [call])
         /\ (forall response result,
               fastapiBatch call = Resolved response ->
               ok response = true -> json response = inr result ->
               resp = mkHttpResponse 200 (BatchRelayed result))
         /\ (forall response,
               fastapiBatch call = Resolved response ->
               ok response = false ->
               resp = mkHttpResponse 500 (BatchError "FastAPI batch request failed"))
         /\ (forall response e,
               fastapiBatch call = Resolved response ->
               ok response = true -> json response = inl e ->
               resp = mkHttpResponse 500
                        (BatchError (Js.or_string (Some (message e))
                                       "Internal server error")))
         /\ (forall e,
               fastapiBatch call = Rejected e ->
               resp = mkHttpResponse 500
                        (BatchError (Js.or_string (Some (message e))
                                       "Internal server error")))
         /\ (http_status resp = 200%N
             <-> exists response result,
                   fastapiBatch call = Resolved response
                   /\ ok response = true /\ json response = inr result).
Proof.
  split; [reflexivity |]. split; [reflexivity |].
  intros first rest names call.
  unfold openriceBatch, Async.try_catch, Async.bind, Async.fetch. simpl.
  fold names. fold call.
  destruct (fastapiBatch call) as [e | response].
  - eexists. split; [reflexivity |].
    split; [discriminate |]. split; [discriminate |]. split; [discriminate |].
    split; [now intros e' [= <-] |].
    split; [discriminate | now intros (? & ? & ? & _)].
  - destruct (ok response) eqn:Hok; simpl.
    + unfold Async.response_json.
      destruct (json response) as [e | result] eqn:Hjson; simpl.
      * eexists. split; [reflexivity |].
        split; [intros ? ? [= <-] _ H; congruence |].
        split; [intros ? [= <-] H; congruence |].
        split; [intros ? ? [= <-] _ H; rewrite Hjson in H; now injection H as <- |].
        split; [discriminate |].
        split; [discriminate | intros (? & ? & [= <-] & _ & H); congruence].
      * eexists. split; [reflexivity |].
        split; [intros ? ? [= <-] _ H; congruence |].
        split; [intros ? [= <-] H; congruence |].
        split; [intros ? ? [= <-] _ H; congruence |].
        split; [discriminate |].
        split; [intros _; now exists response, result | reflexivity].
    + eexists. split; [reflexivity |].
      split; [intros ? ? [= <-] H; congruence |].
      split; [reflexivity |].
      split; [intros ? ? [= <-] H; congruence |].
      split; [discriminate |].
      split; [discriminate | intros (? & ? & [= <-] & H & _); congruence].
Qed.

End BatchExtras.

(** A scraping backend whose batch route answers 503: the handler answers
    500 after its one call. *)
Example openriceBatch_backend_down :
  Async.run (openriceBatch (list OpenRiceData) Cases.brokenBatch
               (ArrayOf ["KFC"%string; "Tim Ho Wan"%string]))
  = (Returned (mkHttpResponse 500 (BatchError "FastAPI batch request failed")),
     [mkBatchCall ["KFC"%string; "Tim Ho Wan"%string] true]).
Proof. reflexivity. Qed.

Section ImageExtras.

Variable backend : ImageCall -> FetchResult ImageReply.
Variable response_text : Response ImageReply -> JsError + string.

Local Abbreviation images := (fetchOpenRiceImages backend response_text).

Lemma fetchOpenRiceImages_run (restaurantName : string) (log : list ImageCall) :
  images restaurantName log
  = (Returned (imageResultFor response_text (backend (mkImageCall restaurantName))),
     log ++ [mkImageCall restaurantName]).
Proof.
  unfold fetchOpenRiceImages, imageResultFor, Async.try_catch, Async.bind, Async.fetch.
  destruct (backend (mkImageCall restaurantName)) as [e | response]; [reflexivity |].
  destruct (ok response); cbn [negb].
  - unfold Async.response_json.
    destruct (json response) as [e | reply]; [reflexivity |].
    unfold Async.ret at 1.
    destruct (ir_data reply) as [data |]; [| reflexivity].
    destruct (ir_success reply && i_matched data); reflexivity.
  - destruct (response_text response) as [e | text]; reflexivity.
Qed.

Lemma imageFailure_facts (error : string) :
  error <> ""%string ->
  im_success (imageFailure error) = false
  /\ im_images (imageFailure error) = None
  /\ exists text, im_error (imageFailure error) = Some text /\ text <> ""%string.
Proof.
  intros H. split; [reflexivity |]. split; [reflexivity |]. now exists error.
Qed.

(** X17. [fetchOpenRiceImages] never throws and issues exactly one call, for
    the name it was given.  It succeeds exactly when the application backend
    answers with a success status and a body that parses, says
    [success: true] and carries matched data; the images are then the data's
    images, or an empty list when the data has none.  A failure carries no
    images and an error text that is not empty. *)
Theorem fetchOpenRiceImages_behaviour (restaurantName : string)
    (log : list ImageCall) :
  exists r,
    images restaurantName log = (Returned r, log ++ [mkImageCall restaurantName])
    /\ (im_success r = true
        <-> exists response reply data,
              backend (mkImageCall restaurantName) = Resolved response
              /\ ok response = true /\ json response = inr reply
              /\ ir_success reply = true /\ ir_data reply = Some data
              /\ i_matched data = true)
    /\ (forall response reply data,
          backend (mkImageCall restaurantName) = Resolved response ->
          ok response = true -> json response = inr reply ->
          ir_success reply = true -> ir_data reply = Some data ->
          i_matched data = true ->
          im_images r = Some (Js.or_array (i_images data) [])
          /\ im_name r = i_name data)
    /\ (im_success r = false ->
        im_images r = None
        /\ exists error, im_error r = Some error /\ error <> ""%string).
Proof.
  rewrite fetchOpenRiceImages_run. eexists. split; [reflexivity |].
  split; [split |]; [| | split].
  - unfold imageResultFor.
    destruct (backend (mkImageCall restaurantName)) as [e | response]; [discriminate |].
    destruct (ok response) eqn:Hok;
      [| destruct (response_text response); discriminate].
    destruct (json response) as [e | reply] eqn:Hjson; [discriminate |].
    destruct (ir_data reply) as [data |] eqn:Hdata; [| discriminate].
    destruct (ir_success reply && i_matched data) eqn:Hboth; [| discriminate].
    apply andb_prop in Hboth as [Hs Hm].
    intros _. now exists response, reply, data.
  - intros (response & reply & data & -> & Hok & Hjson & Hs & Hdata & Hm).
    unfold imageResultFor. now rewrite Hok, Hjson, Hdata, Hs, Hm.
  - intros response reply data -> Hok Hjson Hs Hdata Hm.
    unfold imageResultFor. rewrite Hok, Hjson, Hdata, Hs, Hm. split; reflexivity.
  - assert (Hcaught : forall e,
              (Js.or_string (Some (message e)) "Failed to fetch OpenRice data")
              <> ""%string)
      by (intros e; apply or_string_nonempty; discriminate).
    unfold imageResultFor.
    destruct (backend (mkImageCall restaurantName)) as [e | response].
    + intros _. now apply imageFailure_facts.
    + destruct (ok response).
      * destruct (json response) as [e | reply];
          [intros _; now apply imageFailure_facts |].
        assert (Hnot : Js.or_string (ir_error reply) "Restaurant not found on OpenRice"
                       <> ""%string)
          by (apply or_string_nonempty; discriminate).
        destruct (ir_data reply) as [data |];
          [| intros _; now apply imageFailure_facts].
        destruct (ir_success reply && i_matched data);
          [discriminate | intros _; now apply imageFailure_facts].
      * destruct (response_text response) as [e | text];
          intros _; now apply imageFailure_facts.
Qed.

End ImageExtras.

(** ** Geocoding *)

Section GeocodingExtras.

Variable numberToString : Q -> string.
Variable geocoder : GeocodeCall -> FetchResult GeocodeData.

Local Abbreviation geocode := (geocodeAddress geocoder).
Local Abbreviation reverse := (reverseGeocode numberToString geocoder).
Local Abbreviation reverseHandler := (geocodeReverse geocoder).

Lemma geocodeAddress_run (address : string) (log : list GeocodeCall) :
  let url := GeocodeSearch address GEOAPIFY_API_KEY "1" in
  exists r,
    geocode address log = (Returned r, log ++ [url])
    /\ match geocoder url with
       | Rejected e =>
           gr_success r = false
           /\ exists m, gr_error_message r = Some m /\ m <> ""%string
       | Resolved response =>
           if ok response
           then match json response with
                | inl e =>
                    gr_success r = false
                    /\ exists m, gr_error_message r = Some m /\ m <> ""%string
                | inr data =>
                    match firstFeature data with
                    | None =>
                        r = {| gr_success := false;
                               gr_latitude := None;
                               gr_longitude := None;
                               gr_formatted_address := None;
                               gr_error_message :=
                                 Some "Location not found. Try a more specific address."%string |}
                    | Some feature =>
                        r = {| gr_success := true;
                               gr_latitude := Some (snd (gf_coordinates feature));
                               gr_longitude := Some (fst (gf_coordinates feature));
                               gr_formatted_address := gf_formatted feature;
                               gr_error_message := None |}
                    end
                end
           else
             gr_success r = false
             /\ gr_error_message r
                = Some ("Geoapify API error: " ++ Js.nat_to_string (status response))%string
       end.
Proof.
  intros url. unfold geocodeAddress, Async.try_catch, Async.bind, Async.fetch.
  fold url.
  destruct (geocoder url) as [e | response].
  - eexists. split; [reflexivity |]. split; [reflexivity |].
    eexists. split; [reflexivity |]. apply or_string_nonempty. discriminate.
  - destruct (ok response); cbn [negb].
    + unfold Async.response_json.
      destruct (json response) as [e | data].
      * eexists. split; [reflexivity |]. split; [reflexivity |].
        eexists. split; [reflexivity |]. apply or_string_nonempty. discriminate.
      * unfold Async.ret at 1.
        destruct (firstFeature data) as [feature |];
          eexists; split; reflexivity.
    + eexists. split; [reflexivity |]. split; reflexivity.
Qed.

(** X18. [geocodeAddress] never throws and issues exactly one call, for the
    address as it was given and a limit of one result.  It succeeds exactly
    when the provider answers with a success status and a body that parses
    and has a first feature; latitude and longitude are then the second and
    the first coordinate of that feature.  A body without features gives
    the failure "Location not found. Try a more specific address.". *)
Theorem geocodeAddress_behaviour (address : string) (log : list GeocodeCall) :
  let url := GeocodeSearch address GEOAPIFY_API_KEY "1" in
  exists r,
    geocode address log = (Returned r, log ++ [url])
    /\ (gr_success r = true
        <-> exists response data feature,
              geocoder url = Resolved response /\ ok response = true
              /\ json response = inr data /\ firstFeature data = Some feature)
    /\ (forall response data,
          geocoder url = Resolved response -> ok response = true ->
          json response = inr data ->
          match firstFeature data with
          | Some feature =>
              gr_latitude r = Some (snd (gf_coordinates feature))
              /\ gr_longitude r = Some (fst (gf_coordinates feature))
              /\ gr_formatted_address r = gf_formatted feature
          | None =>
              gr_success r = false
              /\ gr_error_message r
                 = Some "Location not found. Try a more specific address."%string
          end).
Proof.
  intros url. destruct (geocodeAddress_run address log) as (r & Hrun & Hcases).
  fold url in Hrun, Hcases. exists r. split; [exact Hrun |].
  destruct (geocoder url) as [e | response].
  - destruct Hcases as [Hfail _]. split.
    + split; [congruence |]. intros (? & ? & ? & H & _). discriminate.
    + intros ? ? H. discriminate.
  - destruct (ok response) eqn:Hok.
    + destruct (json response) as [e | data] eqn:Hjson.
      * destruct Hcases as [Hfail _]. split.
        -- split; [congruence |].
           intros (? & ? & ? & [= <-] & _ & H & _). congruence.
        -- intros ? ? [= <-] _ H. congruence.
      * destruct (firstFeature data) as [feature |] eqn:Hfirst; subst r.
        -- split.
           ++ split; [| reflexivity]. intros _. now exists response, data, feature.
           ++ intros ? ? [= <-] _ H. rewrite Hjson in H. injection H as <-.
              rewrite Hfirst. repeat split.
        -- split.
           ++ split; [discriminate |].
              intros (? & ? & ? & [= <-] & _ & H & Hf).
              rewrite Hjson in H. injection H as <-. congruence.
           ++ intros ? ? [= <-] _ H. rewrite Hjson in H. injection H as <-.
              rewrite Hfirst. split; reflexivity.
    + destruct Hcases as [Hfail _]. split.
      * split; [congruence |]. intros (? & ? & ? & [= <-] & H & _). congruence.
      * intros ? ? [= <-] H. congruence.
Qed.

Lemma reverseGeocode_run (latitude longitude : Q) (log : list GeocodeCall) :
  let url :=
    GeocodeReverse (numberToString latitude) (numberToString longitude)
      GEOAPIFY_API_KEY in
  reverse latitude longitude log
  = (Returned
       match geocoder url with
       | Rejected e =>
           {| rg_success := false; rg_address := None; rg_details := None;
              rg_error_message :=
                Some (Js.or_string (Some (message e)) "Failed to reverse geocode") |}
       | Resolved response =>
           if ok response
           then match json response with
                | inl e =>
                    {| rg_success := false; rg_address := None; rg_details := None;
                       rg_error_message :=
                         Some (Js.or_string (Some (message e))
                                 "Failed to reverse geocode") |}
                | inr data =>
                    match firstFeature data with
                    | None =>
                        {| rg_success := true; rg_address := None;
                           rg_details := None; rg_error_message := None |}
                    | Some feature =>
                        {| rg_success := true;
                           rg_address := gf_formatted feature;
                           rg_details :=
                             Some {| d_city := gf_city feature;
                                     d_district := gf_district feature;
                                     d_country := gf_country feature |};
                           rg_error_message := None |}
                    end
                end
           else
             {| rg_success := false; rg_address := None; rg_details := None;
                rg_error_message :=
                  Some ("Geoapify API error: "
                        ++ Js.nat_to_string (status response))%string |}
       end,
     log ++ [url]).
Proof.
  intros url. unfold reverseGeocode, Async.try_catch, Async.bind, Async.fetch.
  fold url.
  destruct (geocoder url) as [e | response]; [reflexivity |].
  destruct (ok response); cbn [negb]; [| reflexivity].
  unfold Async.response_json.
  destruct (json response) as [e | data]; [reflexivity |].
  unfold Async.ret at 1.
  destruct (firstFeature data); reflexivity.
Qed.

(** X19. [reverseGeocode] never throws and issues exactly one call.  It
    succeeds exactly when the provider answers with a success status and a
    body that parses, also when the body has no feature: the result then is
    [success: true] without address and details. *)
Theorem reverseGeocode_behaviour (latitude longitude : Q) (log : list GeocodeCall) :
  let url :=
    GeocodeReverse (numberToString latitude) (numberToString longitude)
      GEOAPIFY_API_KEY in
  exists r,
    reverse latitude longitude log = (Returned r, log ++ [url])
    /\ (rg_success r = true
        <-> exists response data,
              geocoder url = Resolved response /\ ok response = true
              /\ json response = inr data)
    /\ (forall response data,
          geocoder url = Resolved response -> ok response = true ->
          json response = inr data ->
          match firstFeature data with
          | Some feature =>
              rg_address r = gf_formatted feature
              /\ rg_details r
                 = Some {| d_city := gf_city feature;
                           d_district := gf_district feature;
                           d_country := gf_country feature |}
          | None => rg_address r = None /\ rg_details r = None
          end).
Proof.
  intros url. rewrite reverseGeocode_run. fold url.
  eexists. split; [reflexivity |].
  destruct (geocoder url) as [e | response].
  - split.
    + split; [discriminate |]. intros (? & ? & H & _). discriminate.
    + intros ? ? H. discriminate.
  - destruct (ok response) eqn:Hok.
    + destruct (json response) as [e | data] eqn:Hjson.
      * split.
        -- split; [discriminate |]. intros (? & ? & [= <-] & _ & H). congruence.
        -- intros ? ? [= <-] _ H. congruence.
      * split.
        -- split; [| destruct (firstFeature data); reflexivity].
           intros _. now exists response, data.
        -- intros ? ? [= <-] _ H. rewrite Hjson in H. injection H as <-.
           destruct (firstFeature data); split; reflexivity.
    + split.
      * split; [discriminate |]. intros (? & ? & [= <-] & H & _). congruence.
      * intros ? ? [= <-] H. congruence.
Qed.

(** X20. The reverse-geocode handler answers 400 with "lat and lon query
    parameters are required" and calls nothing when [lat] or [lon] is
    missing or empty. *)
Theorem geocodeReverse_requires_lat_lon (env : option string) (query : ReverseQuery)
    (log : list GeocodeCall) :
  rq_lat query = None \/ rq_lat query = Some ""%string
  \/ rq_lon query = None \/ rq_lon query = Some ""%string ->
  reverseHandler env query log
  = (Returned
       (mkHttpResponse 400
          (ReverseFailed "lat and lon query parameters are required")),
     log).
Proof.
  intros Hmissing. unfold geocodeReverse, Async.try_catch.
  assert (Hcheck : negb (truthy_link (rq_lat query))
                   || negb (truthy_link (rq_lon query)) = true).
  { destruct Hmissing as [H | [H | [H | H]]]; rewrite H; simpl;
      try reflexivity; apply orb_true_r. }
  rewrite Hcheck. reflexivity.
Qed.

(** X21. Given the coordinates as the client prints them, the reverse-geocode
    handler makes one call, the client's call with the backend's own API
    key, and its body says [success: true] exactly when it answers 200.  When the backend's key is the client's, as it is when the
    environment sets none, the handler does what the client's
    [reverseGeocode] does: the same single call, and the client's result
    relayed, with status 200 and the address and details, or
    [address: null] where the client has neither, for a success, and with
    status 500 and the error message for a failure. *)
Theorem geocodeReverse_agrees_with_client (env : option string) (latitude longitude : Q)
    (log : list GeocodeCall) :
  numberToString latitude <> ""%string ->
  numberToString longitude <> ""%string ->
  let query :=
    mkReverseQuery (Some (numberToString latitude)) (Some (numberToString longitude)) in
  let url :=
    GeocodeReverse (numberToString latitude) (numberToString longitude)
      (backendApiKey env) in
  (exists resp,
     reverseHandler env query log = (Returned resp, log ++ [url])
     /\ (reverse_success (http_body resp) = true <-> http_status resp = 200%N))
  /\ (backendApiKey env = GEOAPIFY_API_KEY ->
      exists r log',
        reverse latitude longitude log = (Returned r, log')
        /\ reverseHandler env query log
           = (Returned (mkHttpResponse (if rg_success r then 200 else 500)
                          (reverseBodyOf r)),
              log')).
Proof.
  intros Hlat Hlon query url.
  apply String.eqb_neq in Hlat, Hlon.
  split.
  - unfold geocodeReverse, Async.try_catch, Async.bind, Async.fetch. simpl.
    unfold Js.truthy_string. rewrite Hlat, Hlon. simpl. fold url.
    destruct (geocoder url) as [e | response];
      [eexists; split; [reflexivity | split; discriminate] |].
    destruct (ok response); cbn [negb];
      [| eexists; split; [reflexivity | split; discriminate]].
    unfold Async.response_json.
    destruct (json response) as [e | data];
      [eexists; split; [reflexivity | split; discriminate] |].
    unfold Async.ret at 1.
    destruct (firstFeature data); eexists; split; try reflexivity; split; reflexivity.
  - intros Hkey. rewrite reverseGeocode_run.
    eexists. eexists. split; [reflexivity |].
    unfold geocodeReverse, Async.try_catch, Async.bind, Async.fetch. simpl.
    unfold Js.truthy_string. rewrite Hlat, Hlon, Hkey. simpl.
    set (call := GeocodeReverse _ _ _).
    destruct (geocoder call) as [e | response]; [reflexivity |].
    destruct (ok response); cbn [negb]; [| reflexivity].
    unfold Async.response_json.
    destruct (json response) as [e | data]; [reflexivity |].
    unfold Async.ret at 1.
    destruct (firstFeature data); reflexivity.
Qed.

(** X22. The restaurants page adopts a geocoded place only when its latitude
    and its longitude are both different from zero: for an address whose
    first feature lies on the equator or on the prime meridian,
    [geocodeAddress] succeeds and the page still sets no location. *)
Theorem zero_coordinate_location_discarded (address input : string)
    (response : Response GeocodeData) (data : GeocodeData) (feature : GeocodeFeature)
    (log : list GeocodeCall) :
  geocoder (GeocodeSearch address GEOAPIFY_API_KEY "1") = Resolved response ->
  ok response = true ->
  json response = inr data ->
  firstFeature data = Some feature ->
  snd (gf_coordinates feature) == 0 \/ fst (gf_coordinates feature) == 0 ->
  exists r,
    fst (geocode address log) = Returned r
    /\ gr_success r = true
    /\ manualLocationOf r input = None.
Proof.
  intros Hanswer Hok Hjson Hfirst Hzero.
  destruct (geocodeAddress_run address log) as (r & Hrun & Hcases).
  rewrite Hanswer, Hok, Hjson, Hfirst in Hcases.
  exists r. rewrite Hrun. split; [reflexivity |]. subst r.
  split; [reflexivity |].
  unfold manualLocationOf, truthy_coordinate, Js.truthy_number. simpl.
  destruct Hzero as [H | H]; apply Qeq_bool_iff in H; rewrite H; simpl;
    [reflexivity | now rewrite andb_false_r].
Qed.

End GeocodingExtras.

(** ** Delivery links and favourites *)

Section DeliveryExtras.

Variable encodeURIComponent : string -> string.
Variable numberToString : Q -> string.

Local Abbreviation links := (getDeliveryLinks encodeURIComponent numberToString).

(** X23. For every restaurant and region, the services that
    [getAvailableServices] lists are those for which [getDeliveryLinks] has
    a link; the Foodpanda link exists in every region, and with region
    "auto" it is the Hong Kong one. *)
Theorem delivery_links_match_services (restaurant : Restaurant) (region : Region) :
  let l := links restaurant region in
  let keys := map s_key (getAvailableServices region) in
  (In "openrice"%string keys <-> l_openrice l <> None)
  /\ (In "keeta"%string keys <-> l_keeta l <> None)
  /\ (In "grab"%string keys <-> l_grab l <> None)
  /\ (In "foodpanda"%string keys <-> l_foodpanda l <> None)
  /\ l_foodpanda l <> None
  /\ (region = auto ->
      l_foodpanda l
      = Some ("https://www.foodpanda.hk/restaurants/search?q="
              ++ encodeURIComponent (name restaurant))%string).
Proof.
  destruct region; cbv zeta; unfold getDeliveryLinks; simpl;
    repeat split; intros; try discriminate; try tauto;
    try (intuition discriminate); try congruence.
Qed.

(** X24. For the regions "hk" and "my", [getDeliveryLinks] has a link for a
    service exactly when the region's entry of [REGIONS] enables it. *)
Theorem delivery_links_match_region_features (restaurant : Restaurant)
    (region : Region) (features : RegionFeatures) :
  REGIONS_features region = Some features ->
  let l := links restaurant region in
  (f_openrice features = true <-> l_openrice l <> None)
  /\ (f_keeta features = true <-> l_keeta l <> None)
  /\ (f_grab features = true <-> l_grab l <> None)
  /\ (f_foodpanda features = true <-> l_foodpanda l <> None).
Proof.
  destruct region; simpl; intros [= <-]; unfold getDeliveryLinks; simpl;
    repeat split; intros; try discriminate; try congruence.
Qed.

End DeliveryExtras.

Lemma existsb_eqb_In (x : string) (xs : list string) :
  existsb (String.eqb x) xs = true <-> In x xs.
Proof.
  rewrite existsb_exists. split.
  - intros (y & Hin & Heq). apply String.eqb_eq in Heq. now subst.
  - intros Hin. exists x. split; [exact Hin | apply String.eqb_refl].
Qed.

Lemma remove_favorite_In (id x : string) (prev : list string) :
  In x (filter (fun fav => negb (String.eqb fav id)) prev) <-> In x prev /\ x <> id.
Proof.
  rewrite filter_In. split; intros [Hin H]; split; try exact Hin.
  - apply negb_true_iff, String.eqb_neq in H. exact H.
  - apply negb_true_iff, String.eqb_neq. exact H.
Qed.

Lemma remove_absent_favorite (id : string) (prev : list string) :
  ~ In id prev -> filter (fun fav => negb (String.eqb fav id)) prev = prev.
Proof.
  induction prev as [| y ys IH]; simpl; intros Hnot; [reflexivity |].
  destruct (String.eqb y id) eqn:E; simpl.
  - apply String.eqb_eq in E. exfalso. apply Hnot. now left.
  - f_equal. apply IH. intros Hin. apply Hnot. now right.
Qed.

(** X25. Toggling a favourite flips whether that identifier is a favourite,
    leaves every other identifier as it was, and keeps a list without
    repetition free of repetition. *)
Theorem toggleFavorite_flips_membership (id : string) (prev : list string) :
  (In id (toggleFavorite id prev) <-> ~ In id prev)
  /\ (forall x, x <> id -> (In x (toggleFavorite id prev) <-> In x prev))
  /\ (NoDup prev -> NoDup (toggleFavorite id prev)).
Proof.
  unfold toggleFavorite.
  destruct (existsb (String.eqb id) prev) eqn:E.
  - apply existsb_eqb_In in E. split; [| split].
    + rewrite remove_favorite_In. tauto.
    + intros x Hx. rewrite remove_favorite_In. tauto.
    + intros Hnodup. now apply NoDup_filter.
  - assert (Hnot : ~ In id prev).
    { intros Hin. apply existsb_eqb_In in Hin. congruence. }
    split; [| split].
    + split; [intros _; exact Hnot |]. intros _. apply in_or_app. right. now left.
    + intros x Hx. rewrite in_app_iff. simpl. split; [| tauto].
      intros [H | [H | []]]; [exact H | congruence].
    + intros Hnodup. apply NoDup_app; [exact Hnodup | repeat constructor; intros [] |].
      intros x Hin [<- | []]. contradiction.
Qed.

(** X26. Toggling the same favourite twice gives back the list itself when
    the identifier was not a favourite; when it was one, it ends up last,
    after the other favourites in their order. *)
Theorem toggleFavorite_twice (id : string) (prev : list string) :
  (~ In id prev -> toggleFavorite id (toggleFavorite id prev) = prev)
  /\ (In id prev ->
      toggleFavorite id (toggleFavorite id prev)
      = filter (fun fav => negb (String.eqb fav id)) prev ++ [id]).
Proof.
  split.
  - intros Hnot. unfold toggleFavorite at 2.
    destruct (existsb (String.eqb id) prev) eqn:E;
      [apply existsb_eqb_In in E; contradiction |].
    unfold toggleFavorite.
    assert (Hin : existsb (String.eqb id) (prev ++ [id]) = true).
    { apply existsb_eqb_In. apply in_or_app. right. now left. }
    rewrite Hin, filter_app. simpl. rewrite String.eqb_refl. simpl.
    rewrite app_nil_r. now apply remove_absent_favorite.
  - intros Hin. unfold toggleFavorite at 2.
    apply existsb_eqb_In in Hin. rewrite Hin.
    unfold toggleFavorite.
    destruct (existsb (String.eqb id) (filter (fun fav => negb (String.eqb fav id)) prev))
      eqn:E; [| reflexivity].
    apply existsb_eqb_In, remove_favorite_In in E. tauto.
Qed.

Lemma StronglySorted_filter {A : Type} (R : A -> A -> Prop) (p : A -> bool)
    (xs : list A) :
  StronglySorted R xs -> StronglySorted R (filter p xs).
Proof.
  induction 1 as [| x xs Hs IH Hx]; simpl; [constructor |].
  destruct (p x); [| exact IH].
  constructor; [exact IH |].
  apply Forall_forall. intros y Hy. apply filter_In in Hy as [Hy _].
  rewrite Forall_forall in Hx. now apply Hx.
Qed.

Section FavoriteExtras.

Variable toLowerCase : string -> string.
Variable numberToString : Q -> string.
Variable now : string.
Variable provider : PlacesRequest -> FetchResult PlacesData.

Local Abbreviation search := (searchRestaurants toLowerCase numberToString now provider).

(** X27. The favourite restaurants of a search result are the restaurants
    of the result whose identifier is a favourite, and they are still in the
    order of non-decreasing distance. *)
Theorem favoriteRestaurants_of_search (latitude longitude : Q)
    (radius limit : option Q) (cuisineFilter : option string)
    (favorites : list string) (log : list PlacesRequest) :
  exists r,
    fst (search latitude longitude radius limit cuisineFilter log) = Returned r
    /\ (forall x,
          In x (favoriteRestaurants (restaurants r) favorites)
          <-> In x (restaurants r) /\ In (id x) favorites)
    /\ StronglySorted (fun a b => distance_meters a <= distance_meters b)
         (favoriteRestaurants (restaurants r) favorites).
Proof.
  rewrite searchRestaurants_run. simpl. eexists. split; [reflexivity |].
  split.
  - intros x. unfold favoriteRestaurants. rewrite filter_In, existsb_eqb_In. tauto.
  - apply StronglySorted_filter. unfold resultFor.
    destruct (provider (searchUrl latitude longitude radius limit cuisineFilter))
      as [e | response]; [constructor |].
    destruct (ok response); [| constructor].
    destruct (json response) as [e | data]; [constructor |].
    unfold successResult. simpl. rewrite byDistance_compareKeys.
    apply StronglySorted_map.
    exact (sort_sorted featureDistance (Js.or_array (features data) [])).
Qed.

End FavoriteExtras.

(** ** Witnesses of the further properties *)

(** Witness of X4: a vegan category tag over a fast-food label. *)
Lemma healthy_signal_scores_healthy_witness :
  Forall (fun label => Js.inherited label = false) ["fast_food"%string]
  /\ healthySignal Js.asciiToLowerCase ["catering.restaurant.Vegan"%string] = true
  /\ (80 <= calculateHealthScore Js.asciiToLowerCase ["fast_food"%string]
              ["catering.restaurant.Vegan"%string])%Z
  /\ getHealthScoreLabel
       (inject_Z (calculateHealthScore Js.asciiToLowerCase ["fast_food"%string]
                    ["catering.restaurant.Vegan"%string])) = "Healthy"%string
  /\ getHealthScoreColor
       (inject_Z (calculateHealthScore Js.asciiToLowerCase ["fast_food"%string]
                    ["catering.restaurant.Vegan"%string])) = "text-green-500"%string.
Proof.
  assert (H : Forall (fun label => Js.inherited label = false) ["fast_food"%string])
    by (repeat constructor).
  split; [exact H |]. split; [reflexivity |].
  exact (healthy_signal_scores_healthy Js.asciiToLowerCase ["fast_food"%string]
           ["catering.restaurant.Vegan"%string] H eq_refl).
Defined.

(** Witness of X5: the label "chinese" of a restaurant with a Chinese tag. *)
Lemma getCuisineEmoji_detected_witness :
  In "chinese"%string
    (detectCuisines Js.asciiToLowerCase ["catering.restaurant.chinese"%string]
       "Golden Wok")
  /\ Js.asciiToLowerCase "chinese" = "chinese"%string
  /\ exists emoji,
       In ("chinese"%string, emoji) cuisineEmojis
       /\ getCuisineEmoji Js.asciiToLowerCase "chinese" = emoji.
Proof.
  assert (Hin : In "chinese"%string
                  (detectCuisines Js.asciiToLowerCase
                     ["catering.restaurant.chinese"%string] "Golden Wok"))
    by (now left).
  split; [exact Hin |]. split; [reflexivity |].
  exact (getCuisineEmoji_detected Js.asciiToLowerCase
           ["catering.restaurant.chinese"%string] "Golden Wok" "chinese"
           Hin eq_refl).
Defined.

(** Witness of X6: 999.5 metres. *)
Lemma formatDistance_below_1000_witness :
  (1999 # 2) < 1000
  /\ formatDistance Instances.toFixed1 (1999 # 2) = "1000m"%string.
Proof.
  assert (Hlt : (1999 # 2) < 1000) by reflexivity.
  split; [exact Hlt |].
  destruct (formatDistance_below_1000 Instances.toFixed1 (1999 # 2) Hlt)
    as (_ & _ & _ & _ & Hedge).
  apply Hedge. apply Qle_refl.
Defined.


(** Witness of X14: the path parameter [100%] ends in a bare percent sign. *)
Lemma openriceSearch_malformed_name_witness :
  AsciiBuiltins.decodeURIComponent "100%" = inl (Error "URI malformed")
  /\ openriceSearch AsciiBuiltins.decodeURIComponent AsciiBuiltins.trim
       Scenario.offlineFastapi "100%" []
     = (Returned (mkHttpResponse 500 (OpenRiceError "URI malformed")), []).
Proof.
  split; [reflexivity |].
  apply (openriceSearch_malformed_name AsciiBuiltins.decodeURIComponent
           AsciiBuiltins.trim Scenario.offlineFastapi "100%" (Error "URI malformed") []).
  reflexivity.
Defined.

(** Witness of X15: a lookup of "KFC" against a backend that has the record. *)
Lemma openriceSearch_relays_data_witness :
  openriceSearch AsciiBuiltins.decodeURIComponent AsciiBuiltins.trim
    Cases.scrapingFastapi "KFC" []
  = (Returned (mkHttpResponse 200 (OpenRiceOk Cases.kfcData)), [mkFastApiCall "KFC"]).
Proof.
  apply (openriceSearch_relays_data AsciiBuiltins.decodeURIComponent
           AsciiBuiltins.trim Cases.scrapingFastapi "KFC" "KFC"
           Cases.kfcAnswer (mkFastApiResult true false (Some Cases.kfcData))
           Cases.kfcData []);
    try reflexivity; discriminate.
Defined.

(** Witness of X20: a query without [lon]. *)
Lemma geocodeReverse_requires_lat_lon_witness :
  geocodeReverse Cases.equatorGeocoder None (mkReverseQuery (Some "22.3"%string) None) []
  = (Returned
       (mkHttpResponse 400
          (ReverseFailed "lat and lon query parameters are required")),
     []).
Proof.
  apply (geocodeReverse_requires_lat_lon Cases.equatorGeocoder None
           (mkReverseQuery (Some "22.3"%string) None) []).
  right. right. left. reflexivity.
Defined.

(** Witness of X21: the coordinates (0, 32) printed as "0" and "32", with no
    key in the environment. *)
Lemma geocodeReverse_agrees_with_client_witness :
  AsciiBuiltins.numberToString 0 <> ""%string
  /\ AsciiBuiltins.numberToString 32 <> ""%string
  /\ backendApiKey None = GEOAPIFY_API_KEY
  /\ exists r log',
       reverseGeocode AsciiBuiltins.numberToString Cases.equatorGeocoder 0 32 []
       = (Returned r, log')
       /\ geocodeReverse Cases.equatorGeocoder None
            (mkReverseQuery (Some (AsciiBuiltins.numberToString 0))
               (Some (AsciiBuiltins.numberToString 32))) []
          = (Returned (mkHttpResponse (if rg_success r then 200 else 500)
                         (reverseBodyOf r)),
             log').
Proof.
  assert (H0 : AsciiBuiltins.numberToString 0 <> ""%string) by discriminate.
  assert (H32 : AsciiBuiltins.numberToString 32 <> ""%string) by discriminate.
  split; [exact H0 |]. split; [exact H32 |]. split; [reflexivity |].
  exact (proj2 (geocodeReverse_agrees_with_client AsciiBuiltins.numberToString
                  Cases.equatorGeocoder None 0 32 [] H0 H32)
           eq_refl).
Defined.

(** Witness of X22: an address that geocodes to a place on the equator. *)
Lemma zero_coordinate_location_discarded_witness :
  exists r,
    fst (geocodeAddress Cases.equatorGeocoder "Equator Monument" []) = Returned r
    /\ gr_success r = true
    /\ manualLocationOf r "Equator Monument" = None.
Proof.
  apply (zero_coordinate_location_discarded Cases.equatorGeocoder
           "Equator Monument" "Equator Monument" Cases.equatorAnswer
           (mkGeocodeData (Some [Cases.equatorFeature])) Cases.equatorFeature []);
    try reflexivity.
  left. reflexivity.
Defined.

(** Witness of X24: the links of a restaurant in the region "my". *)
Lemma delivery_links_match_region_features_witness :
  REGIONS_features my = Some (mkRegionFeatures false false true true)
  /\ let l := getDeliveryLinks Instances.encodeURIComponent AsciiBuiltins.numberToString
                Cases.dimSumCorner my in
     (false = true <-> l_openrice l <> None)
     /\ (false = true <-> l_keeta l <> None)
     /\ (true = true <-> l_grab l <> None)
     /\ (true = true <-> l_foodpanda l <> None).
Proof.
  split; [reflexivity |].
  exact (delivery_links_match_region_features Instances.encodeURIComponent
           AsciiBuiltins.numberToString Cases.dimSumCorner my
           (mkRegionFeatures false false true true) eq_refl).
Defined.
